(** * Library inventory manager: the Book record and the catalog

    A shallow embedding of [src/code.py].  Python strings are modelled as
    Rocq strings whose characters are the code points U+0000..U+00FF
    (Latin-1); [str.strip], [str.lower] and the [in] operator are written
    out on that alphabet.  Mutable objects become explicit state passing:
    a method returns the new object next to its result, and what the code
    prints or logs is collected in a list of events.  The catalog file is
    its text, written by [Json.dumps] and read by [Json.loads]; what the
    operating system does with a read or a write is a parameter of the
    operation. *)

From Stdlib Require Import String Ascii List Bool Arith NArith Lia.
Import ListNotations.
Open Scope string_scope.

(* ------------------------------------------------------------------ *)
(** ** Python string primitives *)

Module PyStr.

Definition code (c : ascii) : N := N_of_ascii c.

(** [str.isspace] on one character: the code points below 256 that
    Unicode marks as whitespace. *)
Definition isspace (c : ascii) : bool :=
  let n := code c in
  ((9 <=? n) && (n <=? 13) || (28 <=? n) && (n <=? 32)
   || (n =? 133) || (n =? 160))%N.

(** [str.lower] on one character: A-Z, and the Latin-1 capitals
    U+00C0..U+00DE without the multiplication sign U+00D7. *)
Definition lower_char (c : ascii) : ascii :=
  let n := code c in
  if ((65 <=? n) && (n <=? 90)
      || (192 <=? n) && (n <=? 222) && negb (n =? 215))%N
  then ascii_of_N (n + 32) else c.

Fixpoint lower (s : string) : string :=
  match s with
  | EmptyString => EmptyString
  | String c s' => String (lower_char c) (lower s')
  end.

Fixpoint lstrip (s : string) : string :=
  match s with
  | EmptyString => EmptyString
  | String c s' => if isspace c then lstrip s' else s
  end.

Fixpoint rstrip (s : string) : string :=
  match s with
  | EmptyString => EmptyString
  | String c s' =>
      match rstrip s' with
      | EmptyString => if isspace c then EmptyString else String c EmptyString
      | r => String c r
      end
  end.

(** [s.strip()]: whitespace removed at both ends. *)
Definition strip (s : string) : string := rstrip (lstrip s).

Fixpoint startswith (p s : string) : bool :=
  match p, s with
  | EmptyString, _ => true
  | String a p', String b s' => Ascii.eqb a b && startswith p' s'
  | String _ _, EmptyString => false
  end.

(** [needle in hay] on strings: [needle] occurs as a substring. *)
Fixpoint contains (needle hay : string) : bool :=
  startswith needle hay ||
  match hay with
  | EmptyString => false
  | String _ hay' => contains needle hay'
  end.

(** Last character of a nonempty string. *)
Fixpoint last_char (s : string) : option ascii :=
  match s with
  | EmptyString => None
  | String c EmptyString => Some c
  | String _ s' => last_char s'
  end.

Definition first_char (s : string) : option ascii :=
  match s with
  | EmptyString => None
  | String c _ => Some c
  end.

Definition no_space_at (o : option ascii) : Prop :=
  match o with
  | None => True
  | Some c => isspace c = false
  end.

(** A string is trimmed when neither end is a whitespace character. *)
Definition trimmed (s : string) : Prop :=
  no_space_at (first_char s) /\ no_space_at (last_char s).

End PyStr.

(* ------------------------------------------------------------------ *)
(** ** Book *)

Record Book : Type := mkBook {
  title : string;
  author : string;
  isbn : string;
  status : string
}.

(** [Book.__init__]. *)
Definition Book_init (title author isbn status : string) : Book :=
  let title' := PyStr.strip title in
  let author' := PyStr.strip author in
  let isbn' := PyStr.strip isbn in
  let status1 :=
    if negb (String.eqb (PyStr.lower status) "available"
             || String.eqb (PyStr.lower status) "issued")
    then "available" else status in
  mkBook title' author' isbn' (PyStr.lower status1).

(** [Book.issue]: the result and the book after the call. *)
Definition issue (self : Book) : bool * Book :=
  if String.eqb (status self) "issued" then (false, self)
  else (true, mkBook (title self) (author self) (isbn self) "issued").

(** [Book.return_book]. *)
Definition return_book (self : Book) : bool * Book :=
  if String.eqb (status self) "available" then (false, self)
  else (true, mkBook (title self) (author self) (isbn self) "available").

(** [Book.is_available]. *)
Definition is_available (self : Book) : bool :=
  String.eqb (status self) "available".

(* ------------------------------------------------------------------ *)
(** ** Python values read from and written to the catalog file *)

#[local] Set Warnings "-register-all".

(** What [json.load] can return.  A number is kept as its lexeme: the
    program never computes with one. *)
Inductive json : Type :=
| JNull
| JBool (b : bool)
| JNum (lexeme : string)
| JStr (s : string)
| JArr (items : list json)
| JObj (fields : list (string * json)).

(** A Python [dict] with string keys, in insertion order. *)
Definition pydict (V : Type) : Type := list (string * V).

Fixpoint dict_get {V : Type} (d : pydict V) (k : string) (default : V) : V :=
  match d with
  | [] => default
  | (k', v) :: d' => if String.eqb k' k then v else dict_get d' k default
  end.

(** [d[k] = v]: an existing key keeps its place, a new one goes last. *)
Fixpoint dict_set {V : Type} (d : pydict V) (k : string) (v : V) : pydict V :=
  match d with
  | [] => [(k, v)]
  | (k', v') :: d' =>
      if String.eqb k' k then (k', v) :: d' else (k', v') :: dict_set d' k v
  end.

(** The exceptions of the program that no handler of [load_from_file]
    catches. *)
Inductive exn : Type := AttributeError | TypeError.

Inductive outcome (A : Type) : Type :=
| Returned (a : A)
| Raised (e : exn).
Arguments Returned {A} a.
Arguments Raised {A} e.

Definition bind {A B : Type} (m : outcome A) (k : A -> outcome B) : outcome B :=
  match m with
  | Returned a => k a
  | Raised e => Raised e
  end.

Notation "x <- m ;; k" := (bind m (fun x => k))
  (at level 61, m at next level, right associativity).

(** Calling a [str] method ([strip], [lower]) on a value: anything but a
    string has no such attribute. *)
Definition as_str (v : json) : outcome string :=
  match v with
  | JStr s => Returned s
  | _ => Raised AttributeError
  end.

(** [Book.to_dict]. *)
Definition to_dict (self : Book) : pydict string :=
  [("title", title self); ("author", author self);
   ("isbn", isbn self); ("status", status self)].

(** [Book.from_dict]: [data.get] exists on a dict only, and [__init__]
    calls [strip] and [lower] on what [get] returned. *)
Definition from_dict (data : json) : outcome Book :=
  match data with
  | JObj d =>
      let title := dict_get d "title" (JStr EmptyString) in
      let author := dict_get d "author" (JStr EmptyString) in
      let isbn := dict_get d "isbn" (JStr EmptyString) in
      let status := dict_get d "status" (JStr "available") in
      t <- as_str title ;;
      a <- as_str author ;;
      i <- as_str isbn ;;
      s <- as_str status ;;
      Returned (Book_init t a i s)
  | _ => Raised AttributeError
  end.

(** [for item in data]: the items of a list, the keys of a dict, the
    characters of a string; nothing else is iterable. *)
Fixpoint chars (s : string) : list json :=
  match s with
  | EmptyString => []
  | String c s' => JStr (String c EmptyString) :: chars s'
  end.

Definition iterate (data : json) : outcome (list json) :=
  match data with
  | JArr items => Returned items
  | JObj d => Returned (map (fun kv => JStr (fst kv)) d)
  | JStr s => Returned (chars s)
  | JNull | JBool _ | JNum _ => Raised TypeError
  end.

(** [[Book.from_dict(item) for item in items]]. *)
Fixpoint from_dict_all (items : list json) : outcome (list Book) :=
  match items with
  | [] => Returned []
  | item :: items' =>
      b <- from_dict item ;;
      bs <- from_dict_all items' ;;
      Returned (b :: bs)
  end.

(* ------------------------------------------------------------------ *)
(** ** The [json] module, as far as the catalog file needs it *)

Module Json.

Import PyStr.

Definition quote : ascii := "034"%char.
Definition backslash : ascii := "092"%char.
Definition newline : ascii := "010"%char.

(** *** Encoding: [json.dump(..., indent=4)] with [ensure_ascii] *)

Definition hex_digit (n : N) : ascii :=
  ascii_of_N (if (n <? 10)%N then 48 + n else 87 + n).

(** One character inside a string literal: [ESCAPE_ASCII] and [ESCAPE_DCT]
    of [json.encoder]. *)
Definition escape_char (c : ascii) : string :=
  let n := code c in
  if (n =? 34)%N then String backslash (String quote EmptyString)
  else if (n =? 92)%N then String backslash (String backslash EmptyString)
  else if (n =? 10)%N then String backslash "n"
  else if (n =? 13)%N then String backslash "r"
  else if (n =? 9)%N then String backslash "t"
  else if (n =? 8)%N then String backslash "b"
  else if (n =? 12)%N then String backslash "f"
  else if ((32 <=? n) && (n <=? 126))%N then String c EmptyString
  else String backslash
         ("u00" ++ String (hex_digit (n / 16))
                     (String (hex_digit (n mod 16)) EmptyString)).

Fixpoint escape (s : string) : string :=
  match s with
  | EmptyString => EmptyString
  | String c s' => escape_char c ++ escape s'
  end.

Definition encode_basestring_ascii (s : string) : string :=
  String quote (escape s ++ String quote EmptyString).

Fixpoint spaces (n : nat) : string :=
  match n with
  | O => EmptyString
  | S n' => String " " (spaces n')
  end.

(** [newline_indent] of [_make_iterencode] at a nesting level, for
    [indent=4]. *)
Definition newline_indent (level : nat) : string :=
  String newline (spaces (4 * level)).

Fixpoint join (sep : string) (parts : list string) : string :=
  match parts with
  | [] => EmptyString
  | [p] => p
  | p :: parts' => p ++ sep ++ join sep parts'
  end.

Definition encode_item (kv : string * string) : string :=
  encode_basestring_ascii (fst kv) ++ ": " ++ encode_basestring_ascii (snd kv).

(** [_iterencode_dict] on a dict of strings, opened at [level]. *)
Definition encode_dict (level : nat) (d : pydict string) : string :=
  match d with
  | [] => "{}"
  | _ => "{" ++ newline_indent (S level)
         ++ join ("," ++ newline_indent (S level)) (map encode_item d)
         ++ newline_indent level ++ "}"
  end.

(** [_iterencode_list] on a list of such dicts, opened at [level]. *)
Definition encode_list (level : nat) (l : list (pydict string)) : string :=
  match l with
  | [] => "[]"
  | _ => "[" ++ newline_indent (S level)
         ++ join ("," ++ newline_indent (S level))
              (map (encode_dict (S level)) l)
         ++ newline_indent level ++ "]"
  end.

(** [json.dumps(l, indent=4)] for the value [save_to_file] writes. *)
Definition dumps (l : list (pydict string)) : string := encode_list 0 l.

(** *** Decoding: [json.loads] *)

Inductive error : Type :=
| JSONDecodeError
| NotLatin1      (* a \u escape names a code point above U+00FF *)
| OutOfFuel.

Inductive presult (A : Type) : Type :=
| POk (a : A) (rest : string)
| PErr (e : error).
Arguments POk {A} a rest.
Arguments PErr {A} e.

Definition is_ws (c : ascii) : bool :=
  let n := code c in ((n =? 32) || (n =? 9) || (n =? 10) || (n =? 13))%N.

Fixpoint skip_ws (s : string) : string :=
  match s with
  | EmptyString => EmptyString
  | String c s' => if is_ws c then skip_ws s' else s
  end.

Definition is_digit (c : ascii) : bool :=
  let n := code c in ((48 <=? n) && (n <=? 57))%N.

Definition hex_val (c : ascii) : option N :=
  let n := code c in
  if ((48 <=? n) && (n <=? 57))%N then Some (n - 48)%N
  else if ((97 <=? n) && (n <=? 102))%N then Some (n - 87)%N
  else if ((65 <=? n) && (n <=? 70))%N then Some (n - 55)%N
  else None.

Definition hex4 (a b c d : ascii) : option N :=
  match hex_val a, hex_val b, hex_val c, hex_val d with
  | Some x, Some y, Some z, Some w => Some (((x * 16 + y) * 16 + z) * 16 + w)%N
  | _, _, _, _ => None
  end.

Definition simple_escape (c : ascii) : option ascii :=
  let n := code c in
  if (n =? 34)%N then Some quote
  else if (n =? 92)%N then Some backslash
  else if (n =? 47)%N then Some "/"%char
  else if (n =? 98)%N then Some "008"%char
  else if (n =? 102)%N then Some "012"%char
  else if (n =? 110)%N then Some "010"%char
  else if (n =? 114)%N then Some "013"%char
  else if (n =? 116)%N then Some "009"%char
  else None.

Definition pcons (c : ascii) (r : presult string) : presult string :=
  match r with
  | POk s rest => POk (String c s) rest
  | PErr e => PErr e
  end.

(** [scanstring] in strict mode, started after the opening quote. *)
Fixpoint scanstring (s : string) : presult string :=
  match s with
  | EmptyString => PErr JSONDecodeError
  | String c s1 =>
      if (code c =? 34)%N then POk EmptyString s1
      else if (code c =? 92)%N then
        match s1 with
        | EmptyString => PErr JSONDecodeError
        | String e s2 =>
            if (code e =? 117)%N then
              match s2 with
              | String h1 (String h2 (String h3 (String h4 s3))) =>
                  match hex4 h1 h2 h3 h4 with
                  | Some n =>
                      if (n <? 256)%N then pcons (ascii_of_N n) (scanstring s3)
                      else PErr NotLatin1
                  | None => PErr JSONDecodeError
                  end
              | _ => PErr JSONDecodeError
              end
            else
              match simple_escape e with
              | Some x => pcons x (scanstring s2)
              | None => PErr JSONDecodeError
              end
        end
      else if (code c <? 32)%N then PErr JSONDecodeError
      else pcons c (scanstring s1)
  end.

Fixpoint strip_prefix (p s : string) : option string :=
  match p, s with
  | EmptyString, _ => Some s
  | String a p', String b s' =>
      if Ascii.eqb a b then strip_prefix p' s' else None
  | String _ _, EmptyString => None
  end.

Fixpoint digits (s : string) : string * string :=
  match s with
  | EmptyString => (EmptyString, EmptyString)
  | String c s' =>
      if is_digit c then let (d, r) := digits s' in (String c d, r)
      else (EmptyString, s)
  end.

(** [NUMBER_RE]: an optional minus sign, then 0 or a digit 1-9 and more
    digits; an optional fraction (a dot and digits) and an optional
    exponent (e or E, an optional sign, digits) are taken when complete. *)
Definition scan_int (s : string) : option (string * string) :=
  match s with
  | EmptyString => None
  | String c s' =>
      if (code c =? 48)%N then Some ("0", s')
      else if is_digit c then
        let (d, r) := digits s' in Some (String c d, r)
      else None
  end.

Definition scan_frac (s : string) : string * string :=
  match s with
  | String c s' =>
      if (code c =? 46)%N then
        match digits s' with
        | (EmptyString, _) => (EmptyString, s)
        | (d, r) => (String c d, r)
        end
      else (EmptyString, s)
  | EmptyString => (EmptyString, s)
  end.

Definition scan_sign (s : string) : string * string :=
  match s with
  | String c s' =>
      if ((code c =? 43) || (code c =? 45))%N then (String c EmptyString, s')
      else (EmptyString, s)
  | EmptyString => (EmptyString, s)
  end.

Definition scan_exp (s : string) : string * string :=
  match s with
  | String c s' =>
      if ((code c =? 101) || (code c =? 69))%N then
        let (sg, s2) := scan_sign s' in
        match digits s2 with
        | (EmptyString, _) => (EmptyString, s)
        | (d, r) => (String c (sg ++ d), r)
        end
      else (EmptyString, s)
  | EmptyString => (EmptyString, s)
  end.

Definition scan_number (s : string) : presult json :=
  let (neg, s1) :=
    match s with
    | String c s' => if (code c =? 45)%N then ("-", s') else (EmptyString, s)
    | EmptyString => (EmptyString, s)
    end in
  match scan_int s1 with
  | None => PErr JSONDecodeError
  | Some (i, r1) =>
      let (f, r2) := scan_frac r1 in
      let (e, r3) := scan_exp r2 in
      POk (JNum (neg ++ i ++ f ++ e)) r3
  end.

(** The constants the scanner tries before a number. *)
Definition scan_constant (s : string) : option (json * string) :=
  match strip_prefix "null" s with
  | Some r => Some (JNull, r)
  | None =>
  match strip_prefix "true" s with
  | Some r => Some (JBool true, r)
  | None =>
  match strip_prefix "false" s with
  | Some r => Some (JBool false, r)
  | None =>
  match strip_prefix "NaN" s with
  | Some r => Some (JNum "NaN", r)
  | None =>
  match strip_prefix "Infinity" s with
  | Some r => Some (JNum "Infinity", r)
  | None =>
  match strip_prefix "-Infinity" s with
  | Some r => Some (JNum "-Infinity", r)
  | None => None
  end end end end end end.

(** [scan_once], [JSONObject] and [JSONArray].  The object and the array
    loops are entered at their first key or value, whitespace skipped.
    Recursion is on [fuel], which [loads] supplies. *)
Fixpoint scan_once (fuel : nat) (s : string) : presult json :=
  match fuel with
  | O => PErr OutOfFuel
  | S fuel' =>
      match s with
      | EmptyString => PErr JSONDecodeError
      | String c s1 =>
          if (code c =? 34)%N then
            match scanstring s1 with
            | POk str rest => POk (JStr str) rest
            | PErr e => PErr e
            end
          else if (code c =? 123)%N then
            match skip_ws s1 with
            | String c2 s2 =>
                if (code c2 =? 125)%N then POk (JObj []) s2
                else scan_members fuel' [] (String c2 s2)
            | EmptyString => PErr JSONDecodeError
            end
          else if (code c =? 91)%N then
            match skip_ws s1 with
            | String c2 s2 =>
                if (code c2 =? 93)%N then POk (JArr []) s2
                else
                  match scan_items fuel' (String c2 s2) with
                  | POk items rest => POk (JArr items) rest
                  | PErr e => PErr e
                  end
            | EmptyString => PErr JSONDecodeError
            end
          else
            match scan_constant s with
            | Some (v, rest) => POk v rest
            | None => scan_number s
            end
      end
  end

with scan_members (fuel : nat) (acc : pydict json) (s : string)
  : presult json :=
  match fuel with
  | O => PErr OutOfFuel
  | S fuel' =>
      match s with
      | EmptyString => PErr JSONDecodeError
      | String c s1 =>
          if negb (code c =? 34)%N then PErr JSONDecodeError
          else
            match scanstring s1 with
            | PErr e => PErr e
            | POk key s2 =>
                match skip_ws s2 with
                | EmptyString => PErr JSONDecodeError
                | String c3 s3 =>
                    if negb (code c3 =? 58)%N then PErr JSONDecodeError
                    else
                      match scan_once fuel' (skip_ws s3) with
                      | PErr e => PErr e
                      | POk v s4 =>
                          let acc' := dict_set acc key v in
                          match skip_ws s4 with
                          | EmptyString => PErr JSONDecodeError
                          | String c5 s5 =>
                              if (code c5 =? 125)%N then POk (JObj acc') s5
                              else if (code c5 =? 44)%N
                              then scan_members fuel' acc' (skip_ws s5)
                              else PErr JSONDecodeError
                          end
                      end
                end
            end
      end
  end

with scan_items (fuel : nat) (s : string) : presult (list json) :=
  match fuel with
  | O => PErr OutOfFuel
  | S fuel' =>
      match scan_once fuel' s with
      | PErr e => PErr e
      | POk v s1 =>
          match skip_ws s1 with
          | EmptyString => PErr JSONDecodeError
          | String c2 s2 =>
              if (code c2 =? 93)%N then POk [v] s2
              else if (code c2 =? 44)%N then
                match scan_items fuel' (skip_ws s2) with
                | POk vs rest => POk (v :: vs) rest
                | PErr e => PErr e
                end
              else PErr JSONDecodeError
          end
      end
  end.

(** [json.loads]: one value, whitespace around it, nothing after.  Two
    units of fuel per character are enough for any text ([loads_fuel]
    below); Python's own bound on the nesting depth is not modelled. *)
Definition loads (text : string) : error + json :=
  match scan_once (S (2 * String.length text)) (skip_ws text) with
  | PErr e => inl e
  | POk v rest =>
      match skip_ws rest with
      | EmptyString => inr v
      | String _ _ => inl JSONDecodeError
      end
  end.

End Json.

(* ------------------------------------------------------------------ *)
(** ** LibraryInventory *)

(** What the code prints and what it hands to [logging].  The text of a
    caught exception, which two log lines end with, is left out. *)
Inductive event : Type :=
| Print (msg : string)
| LogInfo (msg : string)
| LogError (msg : string).

(** The catalog file: [None] when it does not exist, else its text. *)
Definition store : Type := option string.

(** What the operating system does with a read of the catalog file. *)
Inductive read_env : Type :=
| ReadOk
| ReadOSError.

(** What it does with a write: all of it goes through, [open] fails, or
    the write fails when [n] characters of the text are in the file. *)
Inductive write_env : Type :=
| WriteOk
| OpenOSError
| WriteOSError (n : nat).

Fixpoint take (n : nat) (s : string) : string :=
  match n, s with
  | S n', String c s' => String c (take n' s')
  | _, _ => EmptyString
  end.

Record LibraryInventory : Type := mkInventory {
  data_file : string;
  books : list Book
}.

Definition set_books (self : LibraryInventory) (bs : list Book)
  : LibraryInventory :=
  mkInventory (data_file self) bs.

Definition msg_corrupted : string :=
  "Warning: Catalog file is corrupted. Starting with an empty catalog.".
Definition msg_read_error : string :=
  "Error reading catalog file. Starting with an empty catalog.".
Definition msg_save_error : string :=
  "Error: Could not save catalog to file.".
Definition msg_duplicate : string :=
  "A book with this ISBN already exists. Not adding duplicate.".

(** What [load_from_file] does once [json.load] has returned [data]. *)
Definition load_books (data : json) : outcome (list Book) :=
  items <- iterate data ;;
  from_dict_all items.

(** [LibraryInventory.load_from_file].  A text that [Json.loads] does not
    model (a code point above U+00FF) leaves the inventory undetermined:
    [None]. *)
Definition load_from_file (self : LibraryInventory) (st : store)
    (env : read_env) : option (outcome LibraryInventory * list event) :=
  match st with
  | None =>
      Some (Returned (set_books self []),
            [LogInfo ("Data file " ++ data_file self
                      ++ " not found. Starting with empty catalog.")])
  | Some text =>
      match env with
      | ReadOSError =>
          Some (Returned (set_books self []),
                [LogError "OS error while loading catalog: ";
                 Print msg_read_error])
      | ReadOk =>
          match Json.loads text with
          | inl Json.JSONDecodeError =>
              Some (Returned (set_books self []),
                    [LogError "JSON decode error while loading catalog: ";
                     Print msg_corrupted])
          | inl _ => None
          | inr data =>
              match load_books data with
              | Raised e => Some (Raised e, [])
              | Returned bs =>
                  Some (Returned (set_books self bs),
                        [LogInfo "Catalog loaded successfully from file."])
              end
          end
      end
  end.

(** [LibraryInventory.__init__]. *)
Definition LibraryInventory_init (path : string) (st : store)
    (env : read_env) : option (outcome LibraryInventory * list event) :=
  load_from_file (mkInventory path []) st env.

(** [LibraryInventory.save_to_file]: the inventory and the file after
    the call.  Opening for writing empties the file before anything is
    written. *)
Definition save_to_file (self : LibraryInventory) (st : store)
    (env : write_env) : LibraryInventory * store * list event :=
  let text := Json.dumps (map to_dict (books self)) in
  match env with
  | WriteOk =>
      (self, Some text, [LogInfo "Catalog saved successfully to file."])
  | OpenOSError =>
      (self, st,
       [LogError "OS error while saving catalog: "; Print msg_save_error])
  | WriteOSError n =>
      (self, Some (take n text),
       [LogError "OS error while saving catalog: "; Print msg_save_error])
  end.

(** [LibraryInventory.search_by_isbn]. *)
Fixpoint find_isbn (bs : list Book) (i : string) : option Book :=
  match bs with
  | [] => None
  | book :: bs' =>
      if String.eqb (isbn book) i then Some book else find_isbn bs' i
  end.

Definition search_by_isbn (self : LibraryInventory) (i : string)
  : option Book :=
  find_isbn (books self) i.

(** [LibraryInventory.add_book]. *)
Definition add_book (self : LibraryInventory) (book : Book)
  : LibraryInventory * list event :=
  match search_by_isbn self (isbn book) with
  | Some _ =>
      (self,
       [Print msg_duplicate;
        LogInfo ("Attempted to add duplicate ISBN: " ++ isbn book)])
  | None =>
      (set_books self (books self ++ [book]),
       [LogInfo ("Book added: " ++ title book
                 ++ " (ISBN: " ++ isbn book ++ ")")])
  end.

(** [LibraryInventory.search_by_title]. *)
Definition search_by_title (self : LibraryInventory) (t : string)
  : list Book :=
  let title_lower := PyStr.lower t in
  filter (fun book => PyStr.contains title_lower (PyStr.lower (title book)))
         (books self).

(** The object [search_by_isbn] returned is the first of the list with
    that ISBN; a method that changes it changes it there. *)
Fixpoint write_back (bs : list Book) (i : string) (book' : Book)
  : list Book :=
  match bs with
  | [] => []
  | book :: bs' =>
      if String.eqb (isbn book) i then book' :: bs'
      else book :: write_back bs' i book'
  end.

(** [LibraryInventory.issue_book]. *)
Definition issue_book (self : LibraryInventory) (i : string)
  : LibraryInventory * list event :=
  match search_by_isbn self i with
  | None =>
      (self, [Print "Book not found.";
              LogInfo ("Attempt to issue non-existent book ISBN: " ++ i)])
  | Some book =>
      let (ok, book') := issue book in
      let self' := set_books self (write_back (books self) i book') in
      if ok then
        (self', [Print ("Book '" ++ title book' ++ "' issued successfully.");
                 LogInfo ("Book issued: " ++ title book'
                          ++ " (ISBN: " ++ isbn book' ++ ")")])
      else
        (self', [Print "Book is already issued.";
                 LogInfo ("Attempt to issue already issued book ISBN: " ++ i)])
  end.

(** [LibraryInventory.return_book]. *)
Definition Inventory_return_book (self : LibraryInventory) (i : string)
  : LibraryInventory * list event :=
  match search_by_isbn self i with
  | None =>
      (self, [Print "Book not found.";
              LogInfo ("Attempt to return non-existent book ISBN: " ++ i)])
  | Some book =>
      let (ok, book') := return_book book in
      let self' := set_books self (write_back (books self) i book') in
      if ok then
        (self', [Print ("Book '" ++ title book' ++ "' returned successfully.");
                 LogInfo ("Book returned: " ++ title book'
                          ++ " (ISBN: " ++ isbn book' ++ ")")])
      else
        (self', [Print "Book is already available.";
                 LogInfo ("Attempt to return already available book ISBN: "
                          ++ i)])
  end.

(* ------------------------------------------------------------------ *)
(** ** Vocabulary of the specification *)

(** Two strings are equal case-insensitively. *)
Definition ci_eq (a b : string) : Prop := PyStr.lower a = PyStr.lower b.

(** The two statuses, as the code stores them. *)
Definition valid_status (s : string) : Prop :=
  s = "available" \/ s = "issued".

(** The record invariant of the data model: the text fields are trimmed
    and the status is one of the two. *)
Definition Book_ok (b : Book) : Prop :=
  PyStr.trimmed (title b) /\ PyStr.trimmed (author b)
  /\ PyStr.trimmed (isbn b) /\ valid_status (status b).

Fixpoint dict_lookup {V : Type} (d : pydict V) (k : string) : option V :=
  match d with
  | [] => None
  | (k', v) :: d' => if String.eqb k' k then Some v else dict_lookup d' k
  end.

(** The key is absent, or what it maps to is a string. *)
Definition str_field (d : pydict json) (k : string) : bool :=
  match dict_lookup d k with
  | None | Some (JStr _) => true
  | Some _ => false
  end.

(** The string under a key, or the default when the key is absent. *)
Definition field_str (d : pydict json) (k default : string) : string :=
  match dict_lookup d k with
  | Some (JStr s) => s
  | _ => default
  end.

(** The title of [b] contains [s], letter case ignored. *)
Definition title_matches (s : string) (b : Book) : Prop :=
  exists pre post, PyStr.lower (title b) = pre ++ PyStr.lower s ++ post.

(** No two books of the list have the same ISBN. *)
Definition unique_isbn (bs : list Book) : Prop := NoDup (map isbn bs).

(** A dict of strings as the value [json.load] gives back for it. *)
Definition json_of_dict (d : pydict string) : json :=
  JObj (map (fun kv => (fst kv, JStr (snd kv))) d).

(** The dict the decoder builds from the items of [d], started from
    [acc]: one assignment per item, in order. *)
Definition set_all (acc : pydict json) (d : pydict string) : pydict json :=
  fold_left (fun a kv => dict_set a (fst kv) (JStr (snd kv))) d acc.

(** Fuel that reading a list of encoded dicts takes: two per dict and
    one per item. *)
Definition fuel_of_rows (l : list (pydict string)) : nat :=
  list_sum (map (fun d => List.length d + 2) l).

(** A scanner result that is not a lack of fuel and, when a value, leaves
    less than [n] characters unread. *)
Definition consumes {A : Type} (t : Json.presult A) (n : nat) : Prop :=
  t <> Json.PErr Json.OutOfFuel
  /\ forall x r, t = Json.POk x r -> String.length r < n.

(** A string literal of a hand-written catalog file, nothing escaped. *)
Definition lit (s : string) : string :=
  String Json.quote (s ++ String Json.quote EmptyString).

(** A catalog file that holds one record, not a list of records. *)
Definition file_single_record : string :=
  "{" ++ lit "title" ++ ": " ++ lit "Dune" ++ "}".

(** A catalog file in which two records have the same ISBN. *)
Definition file_duplicates : string :=
  "[{" ++ lit "isbn" ++ ": " ++ lit "1" ++ "}, {"
       ++ lit "isbn" ++ ": " ++ lit "1" ++ "}]".

(** What the constructor makes of the fields of a book. *)
Definition renormalize (b : Book) : Book :=
  Book_init (title b) (author b) (isbn b) (status b).

(** The inventories the menu can produce without reading a file: books
    come from the constructor and are added, issued and returned. *)
Inductive reachable : LibraryInventory -> Prop :=
| reach_fresh (path : string) : reachable (mkInventory path [])
| reach_add (self : LibraryInventory) (t a i s : string) :
    reachable self ->
    reachable (fst (add_book self (Book_init t a i s)))
| reach_issue (self : LibraryInventory) (i : string) :
    reachable self -> reachable (fst (issue_book self i))
| reach_return (self : LibraryInventory) (i : string) :
    reachable self -> reachable (fst (Inventory_return_book self i)).

(** Every character of the string is whitespace. *)
Fixpoint all_space (s : string) : bool :=
  match s with
  | EmptyString => true
  | String c s' => PyStr.isspace c && all_space s'
  end.

(** A dict in which each of the four keys of a record is absent or bound
    to a string. *)
Definition well_typed_record (data : json) : bool :=
  match data with
  | JObj d => str_field d "title" && str_field d "author"
              && str_field d "isbn" && str_field d "status"
  | _ => false
  end.


(* ------------------------------------------------------------------ *)
(** ** The command-line layer *)

From Stdlib Require Import ZArith DecimalString.

Module Cli.

Import PyStr.

(** What a call of [input] meets: a line the user typed, the end of the
    input or Ctrl-C.  An input that is exhausted raises EOFError too. *)
Inductive input_event : Type :=
| Line (s : string)
| EOFError
| KeyboardInterrupt.

Definition stdin : Type := list input_event.

Definition input (inp : stdin) : input_event * stdin :=
  match inp with
  | [] => (EOFError, [])
  | e :: rest => (e, rest)
  end.

(** A text as a list of code points: [capitalize] can leave Latin-1. *)
Definition utext : Type := list N.

Fixpoint of_string (s : string) : utext :=
  match s with
  | EmptyString => []
  | String c s' => code c :: of_string s'
  end.

(** The title-case form of a character below U+0100: a-z and
    U+00E0..U+00FE without the division sign go to their capitals, the
    micro sign to U+039C, the sharp s to "Ss" and U+00FF to U+0178. *)
Definition title_char (c : ascii) : utext :=
  let n := code c in
  if ((97 <=? n) && (n <=? 122)
      || (224 <=? n) && (n <=? 254) && negb (n =? 247))%N
  then [(n - 32)%N]
  else if (n =? 181)%N then [924%N]
  else if (n =? 223)%N then [83%N; 115%N]
  else if (n =? 255)%N then [376%N]
  else [n].

(** [str.capitalize]: the first character in title case, the rest in
    lower case. *)
Definition capitalize (s : string) : utext :=
  match s with
  | EmptyString => []
  | String c s' => (title_char c ++ of_string (lower s'))%list
  end.

(** What the command-line layer writes: what the inventory printed or
    logged, a line of its own, the prompt of an [input], or a text
    printed from a book. *)
Inductive cli_event : Type :=
| Out (e : event)
| Prompt (msg : string)
| PrintText (t : utext).

Definition say (msg : string) : cli_event := Out (Print msg).

(** A message that starts with a line feed. *)
Definition nl (msg : string) : string := String Json.newline msg.

(** [Book.__str__]. *)
Definition Book_str (self : Book) : utext :=
  (of_string "Title : " ++ of_string (title self) ++ [10%N]
   ++ of_string "Author: " ++ of_string (author self) ++ [10%N]
   ++ of_string "ISBN  : " ++ of_string (isbn self) ++ [10%N]
   ++ of_string "Status: " ++ capitalize (status self))%list.

(** A natural number in decimal, as an f-string prints it. *)
Definition str_nat (n : nat) : string :=
  NilZero.string_of_uint (Nat.to_uint n).

(** The loop of [display_all], [idx] being the number of the next book. *)
Fixpoint display_books (idx : nat) (bs : list Book) : list cli_event :=
  match bs with
  | [] => []
  | book :: bs' =>
      say (nl ("Book #" ++ str_nat idx))
      :: PrintText (Book_str book)
      :: display_books (S idx) bs'
  end.

(** [LibraryInventory.display_all]. *)
Definition display_all (self : LibraryInventory) : list cli_event :=
  match books self with
  | [] => [say "No books in the catalog."]
  | _ :: _ =>
      (say (nl "--- All Books in Catalog ---")
       :: display_books 1 (books self)
       ++ [say (nl "-----------------------------")])%list
  end.

(** *** [int] on a string *)

(** The whitespace [int] skips at the two ends of its argument. *)
Definition int_space (c : ascii) : bool :=
  let n := code c in
  ((9 <=? n) && (n <=? 13) || (n =? 32) || (n =? 133) || (n =? 160))%N.

Fixpoint lstrip_by (p : ascii -> bool) (s : string) : string :=
  match s with
  | EmptyString => EmptyString
  | String c s' => if p c then lstrip_by p s' else s
  end.

Fixpoint rstrip_by (p : ascii -> bool) (s : string) : string :=
  match s with
  | EmptyString => EmptyString
  | String c s' =>
      match rstrip_by p s' with
      | EmptyString => if p c then EmptyString else String c EmptyString
      | r => String c r
      end
  end.

(** Digits with single underscores between them: the value read so far
    and the number of digits. *)
Fixpoint int_digits (acc : N) (count : nat) (s : string)
  : option (N * nat) :=
  match s with
  | EmptyString => Some (acc, count)
  | String c s' =>
      if Json.is_digit c
      then int_digits (10 * acc + (code c - 48))%N (S count) s'
      else if (code c =? 95)%N then
        match s' with
        | String d s'' =>
            if Json.is_digit d
            then int_digits (10 * acc + (code d - 48))%N (S count) s''
            else None
        | EmptyString => None
        end
      else None
  end.

(** [int(s)] in base ten; [None] is ValueError.  [max_str_digits] is
    [sys.get_int_max_str_digits()], 0 for no limit; the limit applies to
    more than 640 digits only. *)
Definition py_int (max_str_digits : nat) (s : string) : option Z :=
  let s0 := rstrip_by int_space (lstrip_by int_space s) in
  let (negative, s1) :=
    match s0 with
    | String c s' =>
        if (code c =? 45)%N then (true, s')
        else if (code c =? 43)%N then (false, s')
        else (false, s0)
    | EmptyString => (false, s0)
    end in
  match s1 with
  | EmptyString => None
  | String c _ =>
      if negb (Json.is_digit c) then None
      else
        match int_digits 0 0 s1 with
        | None => None
        | Some (n, count) =>
            if (640 <? count)%nat && (0 <? max_str_digits)%nat
               && (max_str_digits <? count)%nat
            then None
            else Some (if negative then (- Z.of_N n)%Z else Z.of_N n)
        end
  end.

Definition msg_cancelled_menu : string :=
  nl "Input cancelled. Returning to menu.".
Definition msg_empty_input : string :=
  "Input cannot be empty. Please try again.".

(** [get_non_empty_input]: the value, the input left and what was
    written. *)
Fixpoint get_non_empty_input (prompt : string) (inp : stdin)
  : string * stdin * list cli_event :=
  match inp with
  | [] => (EmptyString, [], [Prompt prompt; say msg_cancelled_menu])
  | Line s :: rest =>
      let value := strip s in
      match value with
      | String _ _ => (value, rest, [Prompt prompt])
      | EmptyString =>
          let '(v, rest', out) := get_non_empty_input prompt rest in
          (v, rest', Prompt prompt :: say msg_empty_input :: out)
      end
  | _ :: rest => (EmptyString, rest, [Prompt prompt; say msg_cancelled_menu])
  end.

Definition in_menu_range (choice : Z) : bool :=
  ((1 <=? choice) && (choice <=? 6))%Z.

(** [get_menu_choice]. *)
Fixpoint get_menu_choice (max_str_digits : nat) (inp : stdin)
  : Z * stdin * list cli_event :=
  match inp with
  | [] =>
      (6%Z, [], [Prompt "Enter your choice: ";
                 say (nl "Input cancelled. Exiting.")])
  | Line s :: rest =>
      match py_int max_str_digits (strip s) with
      | Some choice =>
          if in_menu_range choice
          then (choice, rest, [Prompt "Enter your choice: "])
          else
            let '(c, rest', out) := get_menu_choice max_str_digits rest in
            (c, rest',
             Prompt "Enter your choice: "
             :: say "Please enter a number between 1 and 6." :: out)
      | None =>
          let '(c, rest', out) := get_menu_choice max_str_digits rest in
          (c, rest',
           Prompt "Enter your choice: "
           :: say "Invalid input. Please enter a number (1-6)." :: out)
      end
  | _ :: rest =>
      (6%Z, rest, [Prompt "Enter your choice: ";
                   say (nl "Input cancelled. Exiting.")])
  end.

Definition is_empty (s : string) : bool :=
  match s with
  | EmptyString => true
  | String _ _ => false
  end.

(** [handle_add_book]. *)
Definition handle_add_book (inventory : LibraryInventory) (inp : stdin)
  : LibraryInventory * stdin * list cli_event :=
  let out0 := [say (nl "--- Add Book ---")] in
  let '(title, inp1, out1) := get_non_empty_input "Enter title: " inp in
  if is_empty title then (inventory, inp1, out0 ++ out1)%list
  else
    let '(author, inp2, out2) := get_non_empty_input "Enter author: " inp1 in
    if is_empty author then (inventory, inp2, out0 ++ out1 ++ out2)%list
    else
      let '(isbn, inp3, out3) := get_non_empty_input "Enter ISBN: " inp2 in
      if is_empty isbn
      then (inventory, inp3, out0 ++ out1 ++ out2 ++ out3)%list
      else
        let new_book := Book_init title author isbn "available" in
        let (inventory', ev) := add_book inventory new_book in
        (inventory', inp3,
         (out0 ++ out1 ++ out2 ++ out3 ++ map Out ev
          ++ [say "Book added to catalog."])%list).

(** [handle_issue_book]. *)
Definition handle_issue_book (inventory : LibraryInventory) (inp : stdin)
  : LibraryInventory * stdin * list cli_event :=
  let out0 := [say (nl "--- Issue Book ---")] in
  let '(isbn, inp1, out1) :=
    get_non_empty_input "Enter ISBN of the book to issue: " inp in
  if is_empty isbn then (inventory, inp1, out0 ++ out1)%list
  else
    let (inventory', ev) := issue_book inventory isbn in
    (inventory', inp1, (out0 ++ out1 ++ map Out ev)%list).

(** [handle_return_book]. *)
Definition handle_return_book (inventory : LibraryInventory) (inp : stdin)
  : LibraryInventory * stdin * list cli_event :=
  let out0 := [say (nl "--- Return Book ---")] in
  let '(isbn, inp1, out1) :=
    get_non_empty_input "Enter ISBN of the book to return: " inp in
  if is_empty isbn then (inventory, inp1, out0 ++ out1)%list
  else
    let (inventory', ev) := Inventory_return_book inventory isbn in
    (inventory', inp1, (out0 ++ out1 ++ map Out ev)%list).

(** [handle_view_all]. *)
Definition handle_view_all (inventory : LibraryInventory)
  : list cli_event :=
  say (nl "--- View All Books ---") :: display_all inventory.

(** The two branches of [handle_search]. *)
Definition search_title_branch (inventory : LibraryInventory) (inp : stdin)
  : stdin * list cli_event :=
  let '(title, inp1, out1) :=
    get_non_empty_input "Enter title or part of title: " inp in
  if is_empty title then (inp1, out1)
  else
    let results := search_by_title inventory title in
    match results with
    | [] => (inp1, (out1 ++ [say "No books found with that title."])%list)
    | _ :: _ =>
        (inp1,
         (out1
          ++ say (nl ("Found " ++ str_nat (List.length results)
                      ++ " book(s):"))
          :: map (fun book => PrintText (10%N :: Book_str book)) results)%list)
    end.

Definition search_isbn_branch (inventory : LibraryInventory) (inp : stdin)
  : stdin * list cli_event :=
  let '(isbn, inp1, out1) := get_non_empty_input "Enter ISBN: " inp in
  if is_empty isbn then (inp1, out1)
  else
    match search_by_isbn inventory isbn with
    | None => (inp1, (out1 ++ [say "No book found with that ISBN."])%list)
    | Some book =>
        (inp1,
         (out1 ++ [say (nl "Book found:"); PrintText (Book_str book)])%list)
    end.

(** [handle_search]. *)
Definition handle_search (max_str_digits : nat)
    (inventory : LibraryInventory) (inp : stdin) : stdin * list cli_event :=
  let out0 := [say (nl "--- Search Books ---"); say "1. Search by Title";
               say "2. Search by ISBN"; Prompt "Enter your choice: "] in
  match input inp with
  | (Line s, rest) =>
      match py_int max_str_digits (strip s) with
      | None =>
          (rest, (out0 ++ [say "Invalid input. Returning to main menu."])%list)
      | Some choice =>
          if (choice =? 1)%Z then
            let (inp1, out1) := search_title_branch inventory rest in
            (inp1, (out0 ++ out1)%list)
          else if (choice =? 2)%Z then
            let (inp1, out1) := search_isbn_branch inventory rest in
            (inp1, (out0 ++ out1)%list)
          else
            (rest,
             (out0 ++ [say "Invalid choice. Returning to main menu."])%list)
      end
  | (_, rest) =>
      (rest,
       (out0 ++ [say (nl "Input cancelled. Returning to main menu.")])%list)
  end.

Definition menu_text : list cli_event :=
  [say (nl "Main Menu:"); say "1. Add Book"; say "2. Issue Book";
   say "3. Return Book"; say "4. View All Books"; say "5. Search Books";
   say "6. Save & Exit"].

Definition banner : list cli_event :=
  [say "======================================";
   say "   Library Inventory Manager (CLI)    ";
   say "======================================"].

(** The [while True] loop of [main], up to the choice of 6: the
    inventory at that point, the input left and what was written.  One
    unit of [fuel] per turn of the loop. *)
Fixpoint menu_loop (fuel : nat) (max_str_digits : nat)
    (inventory : LibraryInventory) (inp : stdin)
  : option (LibraryInventory * stdin * list cli_event) :=
  match fuel with
  | O => None
  | S fuel' =>
      let '(choice, inp1, out1) := get_menu_choice max_str_digits inp in
      let shown := (menu_text ++ out1)%list in
      let continue (inventory' : LibraryInventory) (inp' : stdin)
                   (out : list cli_event) :=
        match menu_loop fuel' max_str_digits inventory' inp' with
        | Some (final, unread, more) =>
            Some (final, unread, (shown ++ out ++ more)%list)
        | None => None
        end in
      if (choice =? 1)%Z then
        let '(inventory', inp2, out2) := handle_add_book inventory inp1 in
        continue inventory' inp2 out2
      else if (choice =? 2)%Z then
        let '(inventory', inp2, out2) := handle_issue_book inventory inp1 in
        continue inventory' inp2 out2
      else if (choice =? 3)%Z then
        let '(inventory', inp2, out2) := handle_return_book inventory inp1 in
        continue inventory' inp2 out2
      else if (choice =? 4)%Z then
        continue inventory inp1 (handle_view_all inventory)
      else if (choice =? 5)%Z then
        let (inp2, out2) := handle_search max_str_digits inventory inp1 in
        continue inventory inp2 out2
      else if (choice =? 6)%Z then
        Some (inventory, inp1, shown)
      else continue inventory inp1 []
  end.

(** What a run of the program leaves: whether [main] returned or raised,
    the catalog file, the input not read and what was written. *)
Record run : Type := mkRun {
  result : outcome unit;
  file_after : store;
  input_left : stdin;
  written : list cli_event
}.

(** [main], on the catalog file [st] and the input [inp].  [None] when
    the file is outside the model of [Json.loads]. *)
Definition main (max_str_digits : nat) (st : store) (renv : read_env)
    (wenv : write_env) (inp : stdin) : option run :=
  match LibraryInventory_init "catalog.json" st renv with
  | None => None
  | Some (Raised e, ev) => Some (mkRun (Raised e) st inp (map Out ev))
  | Some (Returned inventory, ev) =>
      match menu_loop (S (List.length inp)) max_str_digits inventory inp with
      | None => None
      | Some (final, unread, out) =>
          let '(_, st', ev') := save_to_file final st wenv in
          Some (mkRun (Returned tt) st' unread
                  (map Out ev ++ banner ++ out
                   ++ say "Saving catalog and exiting..." :: map Out ev'
                   ++ [say "Goodbye!"])%list)
      end
  end.

(** The program: [main] under the handler of the last lines of the
    file. *)
Definition program (max_str_digits : nat) (st : store) (renv : read_env)
    (wenv : write_env) (inp : stdin) : option run :=
  match main max_str_digits st renv wenv inp with
  | None => None
  | Some r =>
      match result r with
      | Returned _ => Some r
      | Raised _ =>
          Some (mkRun (Returned tt) (file_after r) (input_left r)
                  (written r
                   ++ [Out (LogError "Unhandled exception in main: ");
                       say "An unexpected error occurred. Please check the log file for details."])%list)
      end
  end.

End Cli.

(** What a step of the menu keeps: the input does not grow, the file
    name stays, and so do the record invariant and the distinctness of
    the ISBNs when they hold. *)
Definition step_ok (inventory inventory' : LibraryInventory)
    (inp inp' : Cli.stdin) : Prop :=
  List.length inp' <= List.length inp
  /\ data_file inventory' = data_file inventory
  /\ (Forall Book_ok (books inventory) -> Forall Book_ok (books inventory'))
  /\ (unique_isbn (books inventory) -> unique_isbn (books inventory')).

(* ------------------------------------------------------------------ *)
(** * Properties *)

(** ** Strings *)

Module PyStrFacts.

Import PyStr.

Ltac each_char c :=
  destruct c as [[] [] [] [] [] [] [] []].

Lemma isspace_lower_char (c : ascii) : isspace (lower_char c) = isspace c.
Proof. each_char c; reflexivity. Qed.




Lemma first_char_lower (s : string) :
  first_char (lower s) = option_map lower_char (first_char s).
Proof. destruct s; reflexivity. Qed.

Lemma last_char_lower (s : string) :
  last_char (lower s) = option_map lower_char (last_char s).
Proof.
  induction s as [|c s IH]; [reflexivity|].
  destruct s as [|d s]; [reflexivity|].
  change (last_char (lower (String c (String d s))))
    with (last_char (lower (String d s))).
  exact IH.
Qed.

Lemma no_space_at_lower (o : option ascii) :
  no_space_at (option_map lower_char o) <-> no_space_at o.
Proof.
  destruct o as [c|]; simpl; [|tauto].
  now rewrite isspace_lower_char.
Qed.

(** Lower-casing moves no whitespace: a string is trimmed exactly when
    its lower-cased form is. *)
Lemma trimmed_lower (s : string) : trimmed (lower s) <-> trimmed s.
Proof.
  unfold trimmed.
  now rewrite first_char_lower, last_char_lower, !no_space_at_lower.
Qed.

Lemma lstrip_first (s : string) : no_space_at (first_char (lstrip s)).
Proof.
  induction s as [|c s IH]; simpl; [exact I|].
  destruct (isspace c) eqn:E; [exact IH|]. simpl. exact E.
Qed.

Lemma rstrip_last (s : string) : no_space_at (last_char (rstrip s)).
Proof.
  induction s as [|c s IH]; simpl; [exact I|].
  destruct (rstrip s) as [|d r] eqn:E.
  - destruct (isspace c) eqn:Ec; simpl; [exact I | exact Ec].
  - exact IH.
Qed.

Lemma rstrip_first (s : string) :
  no_space_at (first_char s) -> no_space_at (first_char (rstrip s)).
Proof.
  destruct s as [|c s]; simpl; [exact (fun H => H)|].
  intros Hc. destruct (rstrip s); [rewrite Hc|]; exact Hc.
Qed.

Lemma lstrip_fixed (s : string) :
  no_space_at (first_char s) -> lstrip s = s.
Proof.
  destruct s as [|c s]; simpl; [reflexivity|]. now intros ->.
Qed.

Lemma rstrip_fixed (s : string) :
  no_space_at (last_char s) -> rstrip s = s.
Proof.
  induction s as [|c s IH]; [reflexivity|].
  destruct s as [|d s].
  - simpl. now intros ->.
  - intros H.
    change (rstrip (String c (String d s)))
      with (match rstrip (String d s) with
            | EmptyString =>
                if isspace c then EmptyString else String c EmptyString
            | r => String c r
            end).
    rewrite (IH H). reflexivity.
Qed.

(** What [strip] returns has no whitespace at either end. *)
Lemma strip_trimmed (s : string) : trimmed (strip s).
Proof.
  split.
  - apply rstrip_first, lstrip_first.
  - apply rstrip_last.
Qed.

(** [strip] changes nothing in a trimmed string. *)
Lemma strip_fixed (s : string) : trimmed s -> strip s = s.
Proof.
  intros [Hf Hl]. unfold strip.
  rewrite (lstrip_fixed s Hf). now apply rstrip_fixed.
Qed.

Lemma strip_idem (s : string) : strip (strip s) = strip s.
Proof. apply strip_fixed, strip_trimmed. Qed.

Lemma trimmed_iff_strip (s : string) : trimmed s <-> strip s = s.
Proof.
  split; [apply strip_fixed|].
  intros <-. apply strip_trimmed.
Qed.

Lemma startswith_spec (p s : string) :
  startswith p s = true <-> exists post, s = p ++ post.
Proof.
  revert s. induction p as [|a p IH]; intros s; simpl.
  - split; [intros _; now exists s | reflexivity].
  - destruct s as [|b s].
    + split; [discriminate | intros [post H]; discriminate].
    + rewrite andb_true_iff, Ascii.eqb_eq, IH.
      split.
      * intros [-> [post ->]]. now exists post.
      * intros [post H]. injection H as -> ->. split; [reflexivity|].
        now exists post.
Qed.

(** The [in] operator finds exactly the substrings. *)
Lemma contains_spec (needle hay : string) :
  contains needle hay = true <->
  exists pre post, hay = pre ++ needle ++ post.
Proof.
  induction hay as [|c hay IH].
  - simpl. rewrite orb_false_r, startswith_spec. split.
    + intros [post H]. now exists EmptyString, post.
    + intros [pre [post H]]. destruct pre; [now exists post|discriminate].
  - change (contains needle (String c hay))
      with (startswith needle (String c hay) || contains needle hay).
    rewrite orb_true_iff, startswith_spec, IH. split.
    + intros [[post H] | [pre [post H]]].
      * now exists EmptyString, post.
      * exists (String c pre), post. simpl. now rewrite H.
    + intros [pre [post H]]. destruct pre as [|d pre].
      * left. now exists post.
      * right. simpl in H. injection H as _ H. now exists pre, post.
Qed.

Lemma contains_empty (hay : string) : contains EmptyString hay = true.
Proof. destruct hay; reflexivity. Qed.

End PyStrFacts.

(* ------------------------------------------------------------------ *)
(** ** Book *)

Section BookFacts.

Import PyStr PyStrFacts.

Lemma status_cases (s : string) :
  (lower s = "issued" /\ status (Book_init EmptyString EmptyString EmptyString s) = "issued")
  \/ (lower s <> "issued"
      /\ status (Book_init EmptyString EmptyString EmptyString s) = "available").
Proof.
  unfold Book_init; simpl status.
  destruct (String.eqb (lower s) "available") eqn:Ea;
    destruct (String.eqb (lower s) "issued") eqn:Ei; simpl.
  - apply String.eqb_eq in Ea, Ei. congruence.
  - apply String.eqb_eq in Ea. right. split; [congruence | exact Ea].
  - apply String.eqb_eq in Ei. left. split; assumption.
  - apply String.eqb_neq in Ei. right. split; [exact Ei | reflexivity].
Qed.

Lemma status_Book_init (t a i s : string) :
  status (Book_init t a i s)
  = status (Book_init EmptyString EmptyString EmptyString s).
Proof. reflexivity. Qed.

Lemma Book_init_ok (t a i s : string) : Book_ok (Book_init t a i s).
Proof.
  repeat split; try apply strip_trimmed.
  rewrite status_Book_init.
  destruct (status_cases s) as [[_ ->] | [_ ->]]; [right | left]; reflexivity.
Qed.

Lemma issue_ok (b : Book) : Book_ok b -> Book_ok (snd (issue b)).
Proof.
  intros (Ht & Ha & Hi & Hs). unfold issue.
  destruct (String.eqb (status b) "issued"); simpl.
  - repeat (split; [assumption|]). assumption.
  - repeat (split; [assumption|]). now right.
Qed.

Lemma return_book_ok (b : Book) : Book_ok b -> Book_ok (snd (return_book b)).
Proof.
  intros (Ht & Ha & Hi & Hs). unfold return_book.
  destruct (String.eqb (status b) "available"); simpl.
  - repeat (split; [assumption|]). assumption.
  - repeat (split; [assumption|]). now left.
Qed.

(** C5: whatever status string the constructor is given, the stored
    status is "issued" exactly when that string equals "issued" with
    letter case ignored, and "available" otherwise, so it is always one of
    the two lower-case values; title, author and ISBN are stored as
    [strip] leaves them, with no whitespace at either end. *)
Theorem Book_init_normalizes (t a i s : string) :
  let b := Book_init t a i s in
  (status b = "issued" <-> ci_eq s "issued")
  /\ (status b = "available" <-> ~ ci_eq s "issued")
  /\ valid_status (status b)
  /\ title b = strip t /\ author b = strip a /\ isbn b = strip i
  /\ trimmed (title b) /\ trimmed (author b) /\ trimmed (isbn b).
Proof.
  intros b. subst b. rewrite status_Book_init. unfold ci_eq.
  change (lower "issued") with "issued".
  repeat split; try apply strip_trimmed;
    destruct (status_cases s) as [[E ->] | [E ->]];
    try congruence; try discriminate; try (now left); try (now right).
Qed.

(** C10: the status argument is not stripped.  A status string that
    equals "issued" (letter case ignored) only once its surrounding
    whitespace is removed gives a record whose status is "available",
    while title, author and ISBN are stored stripped. *)
Theorem Book_init_status_not_stripped (t a i s : string) :
  ci_eq (strip s) "issued" ->
  strip s <> s ->
  let b := Book_init t a i s in
  status b = "available"
  /\ title b = strip t /\ author b = strip a /\ isbn b = strip i.
Proof.
  intros Hci Hne b. subst b. split; [|repeat split].
  rewrite status_Book_init.
  destruct (status_cases s) as [[E _] | [_ ->]]; [|reflexivity].
  exfalso. apply Hne. apply strip_fixed, trimmed_lower.
  rewrite E. split; reflexivity.
Qed.

Lemma Book_init_status_not_stripped_witness :
  status (Book_init "Dune" "Herbert" "111" " issued ") = "available"
  /\ title (Book_init " Dune " "Herbert" "111" " issued ") = "Dune".
Proof.
  split.
  - apply (Book_init_status_not_stripped "Dune" "Herbert" "111" " issued ").
    + reflexivity.
    + discriminate.
  - reflexivity.
Defined.

(** C2: [issue] refuses (returns False, book untouched) exactly when the
    status is already "issued", and otherwise returns True with the status
    set to "issued"; [return_book] is the same with "available".  Neither
    touches another field, and on a record whose status is one of the two
    the status stays one of the two: the only moves are
    available -> issued by [issue] and issued -> available by
    [return_book]. *)
Theorem issue_return_transitions (b : Book) :
  (fst (issue b) = false <-> status b = "issued")
  /\ (fst (issue b) = false -> snd (issue b) = b)
  /\ snd (issue b) = mkBook (title b) (author b) (isbn b) "issued"
  /\ (fst (return_book b) = false <-> status b = "available")
  /\ (fst (return_book b) = false -> snd (return_book b) = b)
  /\ snd (return_book b)
     = mkBook (title b) (author b) (isbn b) "available"
  /\ (valid_status (status b) ->
      valid_status (status (snd (issue b)))
      /\ valid_status (status (snd (return_book b)))
      /\ (fst (issue b) = true <-> status b = "available")
      /\ (fst (return_book b) = true <-> status b = "issued")).
Proof.
  destruct b as [t a i s]. unfold issue, return_book; simpl.
  destruct (String.eqb_spec s "issued") as [Ei | Ei];
    destruct (String.eqb_spec s "available") as [Ea | Ea]; simpl.
  - subst s. discriminate.
  - subst s. repeat split; try discriminate; try reflexivity;
      try (now right); try (now left); intros; congruence.
  - subst s. repeat split; try discriminate; try reflexivity;
      try (now right); try (now left); intros; congruence.
  - repeat split; try discriminate; try reflexivity;
      try (now right); try (now left);
      try (intros; congruence);
      destruct H as [H | H]; congruence.
Qed.

End BookFacts.

(* ------------------------------------------------------------------ *)
(** ** Reading a book from a dict *)

Section FromDictFacts.

Import PyStr PyStrFacts.

Lemma dict_get_lookup {V : Type} (d : pydict V) (k : string) (default : V) :
  dict_get d k default
  = match dict_lookup d k with Some v => v | None => default end.
Proof.
  induction d as [|[k' v] d IH]; simpl; [reflexivity|].
  destruct (String.eqb k' k); [reflexivity | exact IH].
Qed.

Lemma as_str_field (d : pydict json) (k default : string) :
  str_field d k = true ->
  as_str (dict_get d k (JStr default)) = Returned (field_str d k default).
Proof.
  unfold str_field, field_str. rewrite dict_get_lookup.
  destruct (dict_lookup d k) as [[]|]; simpl; congruence.
Qed.

Lemma field_str_missing (d : pydict json) (k default : string) :
  dict_lookup d k = None -> field_str d k default = default.
Proof. unfold field_str. now intros ->. Qed.

(** C6, as the code has it: [from_dict] returns a book for every dict in
    which each of the keys title, author, isbn and status is either
    absent or bound to a string, whatever other keys the dict has.  The
    book is the one the constructor builds from the strings found, with
    the empty string for an absent title, author or ISBN and "available"
    for an absent status. *)
Theorem from_dict_string_fields (d : pydict json) :
  str_field d "title" = true ->
  str_field d "author" = true ->
  str_field d "isbn" = true ->
  str_field d "status" = true ->
  exists b,
    from_dict (JObj d) = Returned b
    /\ b = Book_init (field_str d "title" EmptyString)
                     (field_str d "author" EmptyString)
                     (field_str d "isbn" EmptyString)
                     (field_str d "status" "available")
    /\ (dict_lookup d "title" = None -> title b = EmptyString)
    /\ (dict_lookup d "author" = None -> author b = EmptyString)
    /\ (dict_lookup d "isbn" = None -> isbn b = EmptyString)
    /\ (dict_lookup d "status" = None -> status b = "available").
Proof.
  intros Ht Ha Hi Hs. eexists. split; [|split; [reflexivity|]].
  - unfold from_dict.
    rewrite (as_str_field d "title" _ Ht), (as_str_field d "author" _ Ha),
      (as_str_field d "isbn" _ Hi), (as_str_field d "status" _ Hs).
    reflexivity.
  - repeat split; intros Hm; unfold Book_init; simpl;
      rewrite (field_str_missing _ _ _ Hm); reflexivity.
Qed.

Lemma from_dict_string_fields_witness :
  exists b,
    from_dict (JObj [("title", JStr " Dune "); ("year", JNum "1965")])
    = Returned b
    /\ title b = "Dune" /\ author b = EmptyString
    /\ isbn b = EmptyString /\ status b = "available".
Proof.
  destruct (from_dict_string_fields
              [("title", JStr " Dune "); ("year", JNum "1965")]
              eq_refl eq_refl eq_refl eq_refl)
    as (b & Hb & Eb & _ & Ha & Hi & Hs).
  exists b. split; [exact Hb|]. split; [now rewrite Eb|].
  split; [now apply Ha|]. split; [now apply Hi | now apply Hs].
Defined.

(** C6 fails as stated: a dict whose title is null is a dict, and
    [from_dict] raises on it. *)
Lemma from_dict_null_title_raises :
  from_dict (JObj [("title", JNull)]) = Raised AttributeError
  /\ ~ (forall d : pydict json, exists b, from_dict (JObj d) = Returned b).
Proof.
  split; [reflexivity|].
  intros H. destruct (H [("title", JNull)]) as [b Hb]. discriminate Hb.
Qed.

(** A dict of strings always reads back, as the constructor applied to
    its four entries. *)
Lemma from_dict_to_dict (b : Book) :
  from_dict (json_of_dict (to_dict b))
  = Returned (Book_init (title b) (author b) (isbn b) (status b)).
Proof. reflexivity. Qed.

Lemma Book_init_fixed (b : Book) :
  Book_ok b -> Book_init (title b) (author b) (isbn b) (status b) = b.
Proof.
  destruct b as [t a i s]. intros (Ht & Ha & Hi & Hs). simpl in *.
  unfold Book_init.
  rewrite (strip_fixed t Ht), (strip_fixed a Ha), (strip_fixed i Hi).
  destruct Hs as [-> | ->]; reflexivity.
Qed.

End FromDictFacts.

(* ------------------------------------------------------------------ *)
(** ** Catalog operations *)

Section CatalogFacts.

Import PyStr PyStrFacts.

Lemma find_isbn_some (bs : list Book) (i : string) :
  (exists b, find_isbn bs i = Some b)
  <-> exists b, In b bs /\ isbn b = i.
Proof.
  induction bs as [|x bs IH]; simpl.
  - split; [intros [b H]; discriminate | intros [b [[] _]]].
  - destruct (String.eqb_spec (isbn x) i) as [E | E].
    + split; [intros _; exists x; auto | intros _; now exists x].
    + rewrite IH. split.
      * intros [b [Hin Hb]]. exists b. auto.
      * intros [b [[-> | Hin] Hb]]; [contradiction | now exists b].
Qed.

Lemma find_isbn_none (bs : list Book) (i : string) :
  find_isbn bs i = None <-> ~ exists b, In b bs /\ isbn b = i.
Proof.
  rewrite <- find_isbn_some. destruct (find_isbn bs i) as [b|].
  - split; [discriminate | intros H; exfalso; apply H; now exists b].
  - split; [intros _ [b H]; discriminate | reflexivity].
Qed.

(** C3: when some book of the catalog has the ISBN of the new one,
    [add_book] returns the inventory as it was and prints the duplicate
    message; otherwise the new book is the last of the list and the ones
    before it are untouched.  [add_book] is a total function: it returns
    in both cases, and never changes the file name. *)
Theorem add_book_spec (self : LibraryInventory) (book : Book) :
  let self' := fst (add_book self book) in
  let out := snd (add_book self book) in
  ((exists b, In b (books self) /\ isbn b = isbn book) ->
     self' = self /\ In (Print msg_duplicate) out)
  /\ (~ (exists b, In b (books self) /\ isbn b = isbn book) ->
     books self' = (books self ++ [book])%list
     /\ List.length (books self') = S (List.length (books self))
     /\ ~ In (Print msg_duplicate) out)
  /\ data_file self' = data_file self.
Proof.
  unfold add_book, search_by_isbn. split; [|split].
  - intros H. apply find_isbn_some in H. destruct H as [b ->]. simpl.
    split; [reflexivity | now left].
  - intros H. apply find_isbn_none in H. rewrite H. simpl.
    split; [reflexivity|]. split.
    + rewrite length_app. simpl. lia.
    + intros [E | []]. discriminate E.
  - destruct (find_isbn (books self) (isbn book)); reflexivity.
Qed.

(** C9: [search_by_title] keeps, in catalog order, exactly the books
    whose lower-cased title has the lower-cased search string as a
    substring; it returns the empty list when no title matches, and the
    whole catalog for the empty search string. *)
Theorem search_by_title_spec (self : LibraryInventory) (s : string) :
  (exists keep : Book -> bool,
      (forall b, keep b = true <-> title_matches s b)
      /\ search_by_title self s = filter keep (books self))
  /\ (forall b, In b (search_by_title self s)
                <-> In b (books self) /\ title_matches s b)
  /\ ((forall b, In b (books self) -> ~ title_matches s b) <->
      search_by_title self s = [])
  /\ search_by_title self EmptyString = books self.
Proof.
  unfold search_by_title, title_matches. repeat split.
  - exists (fun b => contains (lower s) (lower (title b))). split.
    + intros b. apply contains_spec.
    + reflexivity.
  - now apply filter_In in H.
  - apply filter_In in H. destruct H as [_ H]. now apply contains_spec.
  - intros [Hin Hm]. apply filter_In. split; [exact Hin|].
    now apply contains_spec.
  - intros H. induction (books self) as [|x bs IH]; [reflexivity|].
    simpl. destruct (contains (lower s) (lower (title x))) eqn:E.
    + exfalso. apply (H x); [now left|]. now apply contains_spec.
    + apply IH. intros b Hb. apply H. now right.
  - intros H b Hb Hm. apply contains_spec in Hm.
    assert (Hin : In b (filter (fun book =>
              contains (lower s) (lower (title book))) (books self)))
      by (apply filter_In; split; assumption).
    rewrite H in Hin. exact Hin.
  - simpl. induction (books self) as [|x bs IH]; [reflexivity|].
    simpl. rewrite contains_empty. now rewrite IH.
Qed.

End CatalogFacts.

(* ------------------------------------------------------------------ *)
(** ** The decoder reads back what the encoder writes *)

Module JsonFacts.

Import PyStr PyStrFacts Json.

Lemma append_assoc (s t u : string) : (s ++ t) ++ u = s ++ (t ++ u).
Proof. induction s as [|c s IH]; simpl; [reflexivity | now rewrite IH]. Qed.

Lemma length_append (s t : string) :
  String.length (s ++ t) = String.length s + String.length t.
Proof. induction s as [|c s IH]; simpl; [reflexivity | now rewrite IH]. Qed.

(** Every character comes back from its escape. *)
Lemma scanstring_escape_char (c : ascii) (tail : string) :
  scanstring (escape_char c ++ tail) = pcons c (scanstring tail).
Proof. each_char c; reflexivity. Qed.

Lemma scanstring_escape (s rest : string) :
  scanstring (escape s ++ String quote rest) = POk s rest.
Proof.
  induction s as [|c s IH]; [reflexivity|].
  simpl escape. rewrite append_assoc, scanstring_escape_char, IH.
  reflexivity.
Qed.

Lemma encode_string_app (s rest : string) :
  encode_basestring_ascii s ++ rest
  = String quote (escape s ++ String quote rest).
Proof.
  unfold encode_basestring_ascii. simpl. now rewrite append_assoc.
Qed.

Lemma scan_once_string (f : nat) (s rest : string) :
  scan_once (S f) (encode_basestring_ascii s ++ rest) = POk (JStr s) rest.
Proof.
  rewrite encode_string_app.
  change (scan_once (S f) (String quote (escape s ++ String quote rest)))
    with (match scanstring (escape s ++ String quote rest) with
          | POk str r => POk (JStr str) r
          | PErr e => PErr e
          end).
  now rewrite scanstring_escape.
Qed.

Lemma skip_ws_spaces (n : nat) (s : string) :
  skip_ws (spaces n ++ s) = skip_ws s.
Proof. induction n as [|n IH]; [reflexivity | exact IH]. Qed.

Lemma skip_ws_newline_indent (level : nat) (s : string) :
  skip_ws (newline_indent level ++ s) = skip_ws s.
Proof. unfold newline_indent. simpl. apply skip_ws_spaces. Qed.

Lemma encode_item_app (k v T : string) :
  encode_item (k, v) ++ T
  = String quote (escape k ++ String quote
      (String ":" (String " " (encode_basestring_ascii v ++ T)))).
Proof.
  unfold encode_item. simpl fst; simpl snd.
  rewrite append_assoc, encode_string_app. simpl. now rewrite append_assoc.
Qed.

Lemma join_cons (sep p : string) (ps : list string) (T : string) :
  join sep (p :: ps) ++ T
  = p ++ match ps with
         | [] => T
         | _ :: _ => sep ++ join sep ps ++ T
         end.
Proof.
  destruct ps as [|q ps]; [reflexivity|].
  change (join sep (p :: q :: ps)) with (p ++ sep ++ join sep (q :: ps)).
  now rewrite !append_assoc.
Qed.

Lemma scan_members_eq (f : nat) (acc : pydict json) (x : string) :
  scan_members (S f) acc (String quote x) =
  match scanstring x with
  | PErr e => PErr e
  | POk key s2 =>
      match skip_ws s2 with
      | EmptyString => PErr JSONDecodeError
      | String c3 s3 =>
          if negb (code c3 =? 58)%N then PErr JSONDecodeError
          else
            match scan_once f (skip_ws s3) with
            | PErr e => PErr e
            | POk v s4 =>
                let acc' := dict_set acc key v in
                match skip_ws s4 with
                | EmptyString => PErr JSONDecodeError
                | String c5 s5 =>
                    if (code c5 =? 125)%N then POk (JObj acc') s5
                    else if (code c5 =? 44)%N
                         then scan_members f acc' (skip_ws s5)
                         else PErr JSONDecodeError
                end
            end
      end
  end.
Proof. reflexivity. Qed.

(** One item of an object, read by the members loop. *)
Lemma scan_members_step (f : nat) (acc : pydict json) (k v T : string) :
  scan_members (S (S f)) acc (encode_item (k, v) ++ T) =
  match skip_ws T with
  | EmptyString => PErr JSONDecodeError
  | String c5 s5 =>
      if (code c5 =? 125)%N then POk (JObj (dict_set acc k (JStr v))) s5
      else if (code c5 =? 44)%N
           then scan_members (S f) (dict_set acc k (JStr v)) (skip_ws s5)
           else PErr JSONDecodeError
  end.
Proof.
  rewrite encode_item_app, scan_members_eq, scanstring_escape.
  change (skip_ws (String ":" (String " " (encode_basestring_ascii v ++ T))))
    with (String ":" (String " " (encode_basestring_ascii v ++ T))).
  cbv iota. change (negb (code ":" =? 58)%N) with false. cbv iota.
  change (skip_ws (String " " (encode_basestring_ascii v ++ T)))
    with (skip_ws (encode_basestring_ascii v ++ T)).
  rewrite encode_string_app.
  change (skip_ws (String quote (escape v ++ String quote T)))
    with (String quote (escape v ++ String quote T)).
  rewrite <- encode_string_app, scan_once_string. reflexivity.
Qed.

Lemma skip_ws_items (sep : string) (kv : string * string)
    (d : pydict string) (T : string) :
  skip_ws (join sep (map encode_item (kv :: d)) ++ T)
  = join sep (map encode_item (kv :: d)) ++ T.
Proof.
  simpl map. rewrite join_cons. destruct kv as [k v].
  rewrite encode_item_app. reflexivity.
Qed.

(** The members loop reads the items of an encoded dict. *)
Lemma scan_members_encoded (level : nat) (d : pydict string) :
  forall (acc : pydict json) (f : nat) (rest : string),
  d <> [] ->
  scan_members (List.length d + S f) acc
    (join ("," ++ newline_indent (S level)) (map encode_item d)
     ++ newline_indent level ++ "}" ++ rest)
  = POk (JObj (set_all acc d)) rest.
Proof.
  induction d as [|[k v] d IH]; intros acc f rest Hne; [contradiction|].
  destruct d as [|kv2 d].
  - simpl map. rewrite join_cons.
    change (List.length [(k, v)] + S f) with (S (S f)).
    rewrite scan_members_step, skip_ws_newline_indent. reflexivity.
  - change (map encode_item ((k, v) :: kv2 :: d))
      with (encode_item (k, v) :: map encode_item (kv2 :: d)).
    rewrite join_cons.
    change (List.length ((k, v) :: kv2 :: d) + S f)
      with (S (S (List.length d + S f))).
    rewrite scan_members_step.
    change (map encode_item (kv2 :: d))
      with (encode_item kv2 :: map encode_item d).
    cbv iota.
    change (skip_ws (("," ++ newline_indent (S level))
                     ++ join ("," ++ newline_indent (S level))
                          (encode_item kv2 :: map encode_item d)
                     ++ newline_indent level ++ "}" ++ rest))
      with (String ","
              (newline_indent (S level)
               ++ join ("," ++ newline_indent (S level))
                    (map encode_item (kv2 :: d))
               ++ newline_indent level ++ "}" ++ rest)).
    cbv iota.
    change (code "," =? 125)%N with false.
    change (code "," =? 44)%N with true. cbv iota.
    rewrite skip_ws_newline_indent, skip_ws_items.
    apply (IH (dict_set acc k (JStr v)) f rest). discriminate.
Qed.

Lemma scan_once_brace (f : nat) (s1 x : string) :
  skip_ws s1 = String quote x ->
  scan_once (S f) (String "{" s1) = scan_members f [] (String quote x).
Proof.
  intros H.
  change (scan_once (S f) (String "{" s1))
    with (match skip_ws s1 with
          | String c2 s2 =>
              if (code c2 =? 125)%N then POk (JObj []) s2
              else scan_members f [] (String c2 s2)
          | EmptyString => PErr JSONDecodeError
          end).
  rewrite H. reflexivity.
Qed.

(** An encoded dict is read back as the dict of its items. *)
Lemma scan_once_dict (level : nat) (d : pydict string) (f : nat)
    (rest : string) :
  scan_once (S (List.length d + S f)) (encode_dict level d ++ rest)
  = POk (JObj (set_all [] d)) rest.
Proof.
  destruct d as [|kv d]; [reflexivity|].
  unfold encode_dict. rewrite !append_assoc.
  change ("{" ++ newline_indent (S level)
          ++ join ("," ++ newline_indent (S level)) (map encode_item (kv :: d))
          ++ newline_indent level ++ "}" ++ rest)
    with (String "{" (newline_indent (S level)
          ++ join ("," ++ newline_indent (S level)) (map encode_item (kv :: d))
          ++ newline_indent level ++ "}" ++ rest)).
  assert (Hq : exists x,
             join ("," ++ newline_indent (S level))
               (map encode_item (kv :: d))
             ++ newline_indent level ++ "}" ++ rest = String quote x).
  { simpl map. rewrite join_cons. destruct kv as [k v].
    rewrite encode_item_app. eexists. reflexivity. }
  destruct Hq as [x Hx].
  rewrite (scan_once_brace _ _ x).
  - rewrite <- Hx. now apply scan_members_encoded.
  - rewrite skip_ws_newline_indent, skip_ws_items. exact Hx.
Qed.

Lemma skip_ws_encode_dict (level : nat) (d : pydict string) (T : string) :
  skip_ws (encode_dict level d ++ T) = encode_dict level d ++ T.
Proof. destruct d; reflexivity. Qed.

Lemma skip_ws_comma (x y : string) :
  skip_ws (("," ++ x) ++ y) = String "," (x ++ y).
Proof. reflexivity. Qed.

Lemma scan_items_eq (f : nat) (s : string) :
  scan_items (S f) s =
  match scan_once f s with
  | PErr e => PErr e
  | POk v s1 =>
      match skip_ws s1 with
      | EmptyString => PErr JSONDecodeError
      | String c2 s2 =>
          if (code c2 =? 93)%N then POk [v] s2
          else if (code c2 =? 44)%N then
            match scan_items f (skip_ws s2) with
            | POk vs rest => POk (v :: vs) rest
            | PErr e => PErr e
            end
          else PErr JSONDecodeError
      end
  end.
Proof. reflexivity. Qed.

(** The items loop reads the dicts of an encoded list. *)
Lemma scan_items_encoded (level : nat) (l : list (pydict string)) :
  forall (f : nat) (rest : string),
  l <> [] ->
  scan_items (S (fuel_of_rows l) + f)
    (join ("," ++ newline_indent (S level)) (map (encode_dict (S level)) l)
     ++ newline_indent level ++ "]" ++ rest)
  = POk (map (fun d => JObj (set_all [] d)) l) rest.
Proof.
  induction l as [|d l IH]; intros f rest Hne; [contradiction|].
  change (map (encode_dict (S level)) (d :: l))
    with (encode_dict (S level) d :: map (encode_dict (S level)) l).
  rewrite join_cons.
  replace (S (fuel_of_rows (d :: l)) + f)
    with (S (S (List.length d + S (fuel_of_rows l + f))))
    by (unfold fuel_of_rows; simpl; lia).
  rewrite scan_items_eq, scan_once_dict.
  destruct l as [|d2 l].
  - simpl map. cbv iota. rewrite skip_ws_newline_indent. reflexivity.
  - change (map (encode_dict (S level)) (d2 :: l))
      with (encode_dict (S level) d2 :: map (encode_dict (S level)) l).
    cbv iota. rewrite skip_ws_comma. cbv iota.
    change (code "," =? 93)%N with false.
    change (code "," =? 44)%N with true. cbv iota.
    rewrite skip_ws_newline_indent.
    rewrite join_cons, skip_ws_encode_dict, <- join_cons.
    change (encode_dict (S level) d2 :: map (encode_dict (S level)) l)
      with (map (encode_dict (S level)) (d2 :: l)).
    replace (S (List.length d + S (fuel_of_rows (d2 :: l) + f)))
      with (S (fuel_of_rows (d2 :: l)) + (List.length d + 1 + f)) by lia.
    rewrite IH by discriminate. reflexivity.
Qed.

Lemma length_join (sep : string) (parts : list string) :
  list_sum (map String.length parts) <= String.length (join sep parts).
Proof.
  induction parts as [|p parts IH]; [apply Nat.le_refl|].
  destruct parts as [|q parts].
  - simpl. lia.
  - change (join sep (p :: q :: parts))
      with (p ++ sep ++ join sep (q :: parts)).
    rewrite !length_append. simpl in *. lia.
Qed.

Lemma length_encode_item (kv : string * string) :
  1 <= String.length (encode_item kv).
Proof. unfold encode_item, encode_basestring_ascii. simpl. lia. Qed.

Lemma length_encode_dict (level : nat) (d : pydict string) :
  List.length d + 2 <= String.length (encode_dict level d).
Proof.
  destruct d as [|kv d]; [simpl; lia|].
  unfold encode_dict. rewrite !length_append.
  pose proof (length_join ("," ++ newline_indent (S level))
                (map encode_item (kv :: d))) as Hj.
  assert (Hn : List.length (kv :: d)
               <= list_sum (map String.length (map encode_item (kv :: d)))).
  { generalize (kv :: d). intros l. induction l as [|x l IHl]; simpl.
    - lia.
    - pose proof (length_encode_item x). lia. }
  simpl String.length at 1. simpl String.length at 4. lia.
Qed.

Lemma length_encode_list (l : list (pydict string)) :
  l <> [] -> fuel_of_rows l + 2 <= String.length (encode_list 0 l).
Proof.
  intros Hne. destruct l as [|d l]; [contradiction|].
  unfold encode_list. rewrite !length_append.
  pose proof (length_join ("," ++ newline_indent 1)
                (map (encode_dict 1) (d :: l))) as Hj.
  assert (Hn : fuel_of_rows (d :: l)
               <= list_sum
                    (map String.length (map (encode_dict 1) (d :: l)))).
  { unfold fuel_of_rows. generalize (d :: l). intros r.
    induction r as [|x r IHr]; simpl.
    - lia.
    - pose proof (length_encode_dict 1 x). lia. }
  simpl String.length at 1. simpl String.length at 4. lia.
Qed.

Lemma scan_once_bracket (f : nat) (s1 x : string) :
  skip_ws s1 = String "{" x ->
  scan_once (S f) (String "[" s1) =
  match scan_items f (String "{" x) with
  | POk items rest => POk (JArr items) rest
  | PErr e => PErr e
  end.
Proof.
  intros H.
  change (scan_once (S f) (String "[" s1))
    with (match skip_ws s1 with
          | String c2 s2 =>
              if (code c2 =? 93)%N then POk (JArr []) s2
              else
                match scan_items f (String c2 s2) with
                | POk items rest => POk (JArr items) rest
                | PErr e => PErr e
                end
          | EmptyString => PErr JSONDecodeError
          end).
  rewrite H. reflexivity.
Qed.

(** [json.loads] reads back what [json.dumps] wrote for a list of dicts
    of strings: the list of those dicts, in order. *)
Theorem loads_dumps (l : list (pydict string)) :
  loads (dumps l) = inr (JArr (map (fun d => JObj (set_all [] d)) l)).
Proof.
  destruct l as [|d l]; [reflexivity|].
  unfold loads, dumps.
  pose proof (length_encode_list (d :: l)) as Hlen.
  assert (Hne : d :: l <> []) by discriminate. specialize (Hlen Hne).
  set (text := encode_list 0 (d :: l)) in *.
  assert (Htext : text
            = String "[" (newline_indent 1
                ++ join ("," ++ newline_indent 1)
                     (map (encode_dict 1) (d :: l))
                ++ newline_indent 0 ++ "]" ++ EmptyString)).
  { subst text. unfold encode_list. reflexivity. }
  assert (Hbrace : exists x,
            join ("," ++ newline_indent 1) (map (encode_dict 1) (d :: l))
            ++ newline_indent 0 ++ "]" ++ EmptyString = String "{" x).
  { simpl map. rewrite join_cons. destruct d; eexists; reflexivity. }
  destruct Hbrace as [x Hx].
  replace (skip_ws text) with text by (rewrite Htext; reflexivity).
  rewrite Htext at 2.
  rewrite (scan_once_bracket _ _ x).
  - rewrite <- Hx.
    replace (2 * String.length text)
      with (S (fuel_of_rows (d :: l))
            + (2 * String.length text - S (fuel_of_rows (d :: l)))) by lia.
    rewrite scan_items_encoded by exact Hne. reflexivity.
  - rewrite skip_ws_newline_indent, <- Hx.
    simpl map. rewrite join_cons. apply skip_ws_encode_dict.
Qed.

(** *** The fuel [loads] supplies is enough *)

Lemma consumes_mono {A : Type} (t : presult A) (n m : nat) :
  consumes t n -> n <= m -> consumes t m.
Proof.
  intros [H1 H2] Hle. split; [exact H1|].
  intros x r E. specialize (H2 x r E). lia.
Qed.

Lemma consumes_err {A : Type} (e : error) (n : nat) :
  e <> OutOfFuel -> consumes (@PErr A e) n.
Proof.
  intros He. split; [congruence | discriminate].
Qed.

Lemma consumes_ok {A : Type} (x : A) (r : string) (n : nat) :
  String.length r < n -> consumes (POk x r) n.
Proof.
  intros H. split; [discriminate|]. now intros x' r' [= _ <-].
Qed.

Lemma consumes_pcons (c : ascii) (t : presult string) (n : nat) :
  consumes t n -> consumes (pcons c t) n.
Proof.
  destruct t as [x r | e]; simpl; intros [H1 H2].
  - apply consumes_ok. now apply (H2 x r).
  - apply consumes_err. congruence.
Qed.

Lemma length_skip_ws (s : string) :
  String.length (skip_ws s) <= String.length s.
Proof.
  induction s as [|c s IH]; simpl; [lia|].
  destruct (is_ws c); simpl; lia.
Qed.

Lemma consumes_scanstring (n : nat) :
  forall s, String.length s <= n -> consumes (scanstring s) (String.length s).
Proof.
  induction n as [|n IH]; intros s Hn.
  - destruct s; [|simpl in Hn; lia]. now apply consumes_err.
  - destruct s as [|c s1]; [now apply consumes_err|].
    simpl in Hn. simpl scanstring.
    destruct (code c =? 34)%N; [apply consumes_ok; simpl; lia|].
    destruct (code c =? 92)%N.
    + destruct s1 as [|e s2]; [now apply consumes_err|].
      simpl in Hn.
      destruct (code e =? 117)%N.
      * destruct s2 as [|h1 [|h2 [|h3 [|h4 s3]]]];
          try (now apply consumes_err).
        simpl in Hn.
        destruct (hex4 h1 h2 h3 h4) as [k|]; [|now apply consumes_err].
        destruct (k <? 256)%N; [|now apply consumes_err].
        apply consumes_pcons.
        apply (consumes_mono _ (String.length s3)); [apply IH; lia|].
        simpl. lia.
      * destruct (simple_escape e); [|now apply consumes_err].
        apply consumes_pcons.
        apply (consumes_mono _ (String.length s2)); [apply IH; lia|].
        simpl. lia.
    + destruct (code c <? 32)%N; [now apply consumes_err|].
      apply consumes_pcons.
      apply (consumes_mono _ (String.length s1)); [apply IH; lia|].
      simpl. lia.
Qed.

Lemma length_strip_prefix (p s r : string) :
  strip_prefix p s = Some r ->
  String.length s = String.length p + String.length r.
Proof.
  revert s. induction p as [|a p IH]; intros s; simpl.
  - now intros [= ->].
  - destruct s as [|b s]; [discriminate|].
    destruct (Ascii.eqb a b); [|discriminate].
    intros H. simpl. now rewrite (IH s H).
Qed.

Lemma length_scan_constant (s : string) (v : json) (r : string) :
  scan_constant s = Some (v, r) -> String.length r < String.length s.
Proof.
  unfold scan_constant.
  repeat match goal with
         | |- context [strip_prefix ?p s] =>
             let E := fresh "E" in
             destruct (strip_prefix p s) eqn:E;
             [apply length_strip_prefix in E; simpl in E;
              intros [= _ <-]; lia|]
         end.
  discriminate.
Qed.

Lemma length_digits (s : string) :
  String.length (snd (digits s)) <= String.length s.
Proof.
  induction s as [|c s IH]; simpl; [lia|].
  destruct (is_digit c); [|simpl; lia].
  destruct (digits s) as [d r]. simpl in *. lia.
Qed.

Lemma length_scan_int (s i r : string) :
  scan_int s = Some (i, r) -> String.length r < String.length s.
Proof.
  destruct s as [|c s]; simpl; [discriminate|].
  destruct (code c =? 48)%N; [intros [= _ <-]; lia|].
  destruct (is_digit c); [|discriminate].
  pose proof (length_digits s) as H. destruct (digits s) as [d r'].
  intros [= _ <-]. simpl in H. lia.
Qed.

Lemma length_scan_frac (s : string) :
  String.length (snd (scan_frac s)) <= String.length s.
Proof.
  destruct s as [|c s]; simpl; [lia|].
  destruct (code c =? 46)%N; [|simpl; lia].
  pose proof (length_digits s) as H. destruct (digits s) as [[|d0 d] r].
  - simpl. lia.
  - simpl in *. lia.
Qed.

Lemma length_scan_exp (s : string) :
  String.length (snd (scan_exp s)) <= String.length s.
Proof.
  destruct s as [|c s]; simpl; [lia|].
  destruct ((code c =? 101) || (code c =? 69))%N; [|simpl; lia].
  assert (Hs : String.length (snd (scan_sign s)) <= String.length s).
  { destruct s as [|c' s']; simpl; [lia|].
    destruct ((code c' =? 43) || (code c' =? 45))%N; simpl; lia. }
  destruct (scan_sign s) as [sg s2]. simpl in Hs.
  pose proof (length_digits s2) as H. destruct (digits s2) as [[|d0 d] r].
  - simpl. lia.
  - simpl in *. lia.
Qed.

Lemma consumes_scan_number (s : string) :
  consumes (scan_number s) (String.length s).
Proof.
  unfold scan_number.
  set (p := match s with
            | EmptyString => (EmptyString, s)
            | String c s' =>
                if (code c =? 45)%N then ("-", s') else (EmptyString, s)
            end).
  assert (Hp : String.length (snd p) <= String.length s).
  { subst p. destruct s as [|c s']; simpl; [lia|].
    destruct (code c =? 45)%N; simpl; lia. }
  destruct p as [neg s1]. simpl in Hp.
  destruct (scan_int s1) as [[i r1]|] eqn:Ei; [|now apply consumes_err].
  apply length_scan_int in Ei.
  pose proof (length_scan_frac r1) as Hf.
  destruct (scan_frac r1) as [fr r2]. simpl in Hf.
  pose proof (length_scan_exp r2) as He.
  destruct (scan_exp r2) as [ex r3]. simpl in He.
  apply consumes_ok. lia.
Qed.

Lemma consumes_inv_ok {A : Type} (x : A) (r : string) (n : nat) :
  consumes (POk x r) n -> String.length r < n.
Proof. intros [_ H]. now apply (H x r). Qed.

Lemma consumes_inv_err {A : Type} (e : error) (n : nat) :
  consumes (@PErr A e) n -> e <> OutOfFuel.
Proof. intros [H _] ->. now apply H. Qed.

Lemma scan_once_unfold (f : nat) (s : string) :
  scan_once (S f) s =
  match s with
  | EmptyString => PErr JSONDecodeError
  | String c s1 =>
      if (code c =? 34)%N then
        match scanstring s1 with
        | POk str rest => POk (JStr str) rest
        | PErr e => PErr e
        end
      else if (code c =? 123)%N then
        match skip_ws s1 with
        | String c2 s2 =>
            if (code c2 =? 125)%N then POk (JObj []) s2
            else scan_members f [] (String c2 s2)
        | EmptyString => PErr JSONDecodeError
        end
      else if (code c =? 91)%N then
        match skip_ws s1 with
        | String c2 s2 =>
            if (code c2 =? 93)%N then POk (JArr []) s2
            else
              match scan_items f (String c2 s2) with
              | POk items rest => POk (JArr items) rest
              | PErr e => PErr e
              end
        | EmptyString => PErr JSONDecodeError
        end
      else
        match scan_constant s with
        | Some (v, rest) => POk v rest
        | None => scan_number s
        end
  end.
Proof. destruct s; reflexivity. Qed.

Lemma scan_members_unfold (f : nat) (acc : pydict json) (s : string) :
  scan_members (S f) acc s =
  match s with
  | EmptyString => PErr JSONDecodeError
  | String c s1 =>
      if negb (code c =? 34)%N then PErr JSONDecodeError
      else
        match scanstring s1 with
        | PErr e => PErr e
        | POk key s2 =>
            match skip_ws s2 with
            | EmptyString => PErr JSONDecodeError
            | String c3 s3 =>
                if negb (code c3 =? 58)%N then PErr JSONDecodeError
                else
                  match scan_once f (skip_ws s3) with
                  | PErr e => PErr e
                  | POk v s4 =>
                      match skip_ws s4 with
                      | EmptyString => PErr JSONDecodeError
                      | String c5 s5 =>
                          if (code c5 =? 125)%N
                          then POk (JObj (dict_set acc key v)) s5
                          else if (code c5 =? 44)%N
                          then scan_members f (dict_set acc key v)
                                 (skip_ws s5)
                          else PErr JSONDecodeError
                      end
                  end
            end
        end
  end.
Proof. destruct s; reflexivity. Qed.

Ltac decode_error := apply consumes_err; discriminate.

(** With two units of fuel per character left to read, and one or two
    more, no scanner runs out; a value read consumes at least one
    character. *)
Lemma consumes_scan (f : nat) :
  (forall s, 2 * String.length s + 1 <= f ->
             consumes (scan_once f s) (String.length s))
  /\ (forall acc s, 2 * String.length s + 1 <= f ->
                    consumes (scan_members f acc s) (String.length s))
  /\ (forall s, 2 * String.length s + 2 <= f ->
                consumes (scan_items f s) (String.length s)).
Proof.
  induction f as [|f (IHo & IHm & IHi)].
  { repeat split; intros; lia. }
  split; [|split].
  - intros s H. rewrite scan_once_unfold.
    destruct s as [|c s1]; [decode_error|]. simpl String.length in *.
    destruct (code c =? 34)%N.
    { pose proof (consumes_scanstring _ s1 (le_n _)) as Hs.
      destruct (scanstring s1) as [str rest | e].
      - apply consumes_inv_ok in Hs. apply consumes_ok. lia.
      - apply consumes_inv_err in Hs. now apply consumes_err. }
    destruct (code c =? 123)%N.
    { pose proof (length_skip_ws s1) as Hw.
      destruct (skip_ws s1) as [|c2 s2]; [decode_error|].
      simpl in Hw.
      destruct (code c2 =? 125)%N; [apply consumes_ok; lia|].
      apply (consumes_mono _ (String.length (String c2 s2)));
        [apply IHm|]; simpl; lia. }
    destruct (code c =? 91)%N.
    { pose proof (length_skip_ws s1) as Hw.
      destruct (skip_ws s1) as [|c2 s2]; [decode_error|].
      simpl in Hw.
      destruct (code c2 =? 93)%N; [apply consumes_ok; lia|].
      assert (Hi : consumes (scan_items f (String c2 s2))
                     (String.length (String c2 s2)))
        by (apply IHi; simpl; lia).
      destruct (scan_items f (String c2 s2)) as [items rest | e].
      - apply consumes_inv_ok in Hi. simpl in Hi. apply consumes_ok. lia.
      - apply consumes_inv_err in Hi. now apply consumes_err. }
    destruct (scan_constant (String c s1)) as [[v rest]|] eqn:E.
    + apply length_scan_constant in E. now apply consumes_ok.
    + apply consumes_scan_number.
  - intros acc s H. rewrite scan_members_unfold.
    destruct s as [|c s1]; [decode_error|]. simpl String.length in *.
    destruct (negb (code c =? 34)%N); [decode_error|].
    pose proof (consumes_scanstring _ s1 (le_n _)) as Hs.
    destruct (scanstring s1) as [key s2 | e];
      [|apply consumes_inv_err in Hs; now apply consumes_err].
    apply consumes_inv_ok in Hs.
    pose proof (length_skip_ws s2) as Hw2.
    destruct (skip_ws s2) as [|c3 s3]; [decode_error|]. simpl in Hw2.
    destruct (negb (code c3 =? 58)%N); [decode_error|].
    pose proof (length_skip_ws s3) as Hw3.
    assert (Hv : consumes (scan_once f (skip_ws s3))
                   (String.length (skip_ws s3))) by (apply IHo; lia).
    destruct (scan_once f (skip_ws s3)) as [v s4 | e];
      [|apply consumes_inv_err in Hv; now apply consumes_err].
    apply consumes_inv_ok in Hv.
    pose proof (length_skip_ws s4) as Hw4.
    destruct (skip_ws s4) as [|c5 s5]; [decode_error|]. simpl in Hw4.
    destruct (code c5 =? 125)%N; [apply consumes_ok; lia|].
    destruct (code c5 =? 44)%N; [|decode_error].
    pose proof (length_skip_ws s5) as Hw5.
    apply (consumes_mono _ (String.length (skip_ws s5)));
      [apply IHm|]; lia.
  - intros s H. rewrite scan_items_eq.
    assert (Hv : consumes (scan_once f s) (String.length s))
      by (apply IHo; lia).
    destruct (scan_once f s) as [v s1 | e];
      [|apply consumes_inv_err in Hv; now apply consumes_err].
    apply consumes_inv_ok in Hv.
    pose proof (length_skip_ws s1) as Hw1.
    destruct (skip_ws s1) as [|c2 s2]; [decode_error|]. simpl in Hw1.
    destruct (code c2 =? 93)%N; [apply consumes_ok; lia|].
    destruct (code c2 =? 44)%N; [|decode_error].
    pose proof (length_skip_ws s2) as Hw2.
    assert (Hi : consumes (scan_items f (skip_ws s2))
                   (String.length (skip_ws s2))) by (apply IHi; lia).
    destruct (scan_items f (skip_ws s2)) as [vs rest | e].
    + apply consumes_inv_ok in Hi. apply consumes_ok. lia.
    + apply consumes_inv_err in Hi. now apply consumes_err.
Qed.

(** [loads] never stops for lack of fuel: it returns a value, or fails
    the way Python does, or meets a code point above U+00FF. *)
Theorem loads_fuel (text : string) : loads text <> inl OutOfFuel.
Proof.
  unfold loads.
  pose proof (length_skip_ws text) as Hw.
  assert (H : consumes (scan_once (S (2 * String.length text))
                          (skip_ws text))
                (String.length (skip_ws text)))
    by (apply consumes_scan; lia).
  destruct (scan_once (S (2 * String.length text)) (skip_ws text))
    as [v rest | e].
  - destruct (skip_ws rest); discriminate.
  - apply consumes_inv_err in H. congruence.
Qed.

End JsonFacts.

(* ------------------------------------------------------------------ *)
(** ** Loading and saving *)

Section PersistenceFacts.

Import PyStr PyStrFacts JsonFacts.

Lemma from_dict_all_rows (bs : list Book) :
  from_dict_all (map (fun d => JObj (set_all [] d)) (map to_dict bs))
  = Returned (map renormalize bs).
Proof.
  induction bs as [|b bs IH]; [reflexivity|].
  cbn [map from_dict_all].
  change (from_dict (JObj (set_all [] (to_dict b))))
    with (Returned (renormalize b)).
  cbn [bind]. rewrite IH. reflexivity.
Qed.

Lemma renormalize_fixed (bs : list Book) :
  Forall Book_ok bs -> map renormalize bs = bs.
Proof.
  induction 1 as [|b bs Hb _ IH]; [reflexivity|].
  simpl. unfold renormalize at 1. now rewrite (Book_init_fixed b Hb), IH.
Qed.

(** Loading what a save wrote gives every book as the constructor
    rebuilds it from its own fields, in the order of the catalog. *)
Lemma load_after_save (self other : LibraryInventory) (st : store) :
  load_from_file other (snd (fst (save_to_file self st WriteOk))) ReadOk
  = Some (Returned (set_books other (map renormalize (books self))),
          [LogInfo "Catalog loaded successfully from file."]).
Proof.
  unfold save_to_file, load_from_file. cbn [fst snd].
  rewrite loads_dumps. unfold load_books. cbn [iterate bind].
  now rewrite from_dict_all_rows.
Qed.

Lemma lower_valid_status (s : string) : valid_status s -> lower s = s.
Proof. intros [-> | ->]; reflexivity. Qed.

(** C1: when every record of the catalog satisfies the record invariant
    (trimmed fields, one of the two statuses), saving it and then
    constructing an inventory from the written file gives a catalog with
    as many records, in the same order, each with the same title, author
    and ISBN and with the lower-cased status of the record saved; it is
    the saved catalog itself. *)
Theorem save_load_round_trip (self : LibraryInventory) (st : store) :
  Forall Book_ok (books self) ->
  let st' := snd (fst (save_to_file self st WriteOk)) in
  exists loaded out,
    LibraryInventory_init (data_file self) st' ReadOk
    = Some (Returned loaded, out)
    /\ List.length (books loaded) = List.length (books self)
    /\ (forall n b, nth_error (books self) n = Some b ->
          exists b', nth_error (books loaded) n = Some b'
                     /\ title b' = title b /\ author b' = author b
                     /\ isbn b' = isbn b
                     /\ status b' = lower (status b))
    /\ loaded = self.
Proof.
  intros Hok st'. subst st'. unfold LibraryInventory_init.
  rewrite load_after_save, (renormalize_fixed _ Hok).
  eexists _, _. split; [reflexivity|]. cbn [books set_books data_file].
  split; [reflexivity|]. split.
  - intros n b Hn. exists b. split; [exact Hn|]. repeat split.
    symmetry. apply lower_valid_status.
    apply nth_error_In in Hn. rewrite Forall_forall in Hok.
    now destruct (Hok b Hn) as (_ & _ & _ & Hs).
  - now destruct self.
Qed.

Lemma save_load_round_trip_witness :
  let self := mkInventory "catalog.json"
                [mkBook "Dune" "Herbert" "111" "issued";
                 mkBook "Emma" "Austen" "222" "available"] in
  exists loaded out,
    LibraryInventory_init "catalog.json"
      (snd (fst (save_to_file self None WriteOk))) ReadOk
    = Some (Returned loaded, out)
    /\ loaded = self.
Proof.
  intros self.
  assert (Hok : Forall Book_ok (books self)).
  { repeat (apply Forall_cons || apply Forall_nil);
      (repeat (split; [split; reflexivity|]));
      [right | left]; reflexivity. }
  destruct (save_load_round_trip self None Hok)
    as (loaded & out & Hload & _ & _ & Hsame).
  exists loaded, out. split; [exact Hload | exact Hsame].
Defined.

(** The paths of [load_from_file] that the code handles: no file, a read
    that fails and a text that is not JSON all give the empty catalog,
    the last two with a message; a JSON list of dicts with string fields
    gives the books of those dicts, in order. *)
Lemma load_from_file_handled (self : LibraryInventory) :
  (exists out, load_from_file self None ReadOk
               = Some (Returned (set_books self []), out)
               /\ forall m, ~ In (Print m) out)
  /\ (forall text,
        exists out, load_from_file self (Some text) ReadOSError
                    = Some (Returned (set_books self []), out)
                    /\ In (Print msg_read_error) out)
  /\ (forall text, Json.loads text = inl Json.JSONDecodeError ->
        exists out, load_from_file self (Some text) ReadOk
                    = Some (Returned (set_books self []), out)
                    /\ In (Print msg_corrupted) out)
  /\ (forall text items bs,
        Json.loads text = inr (JArr items) ->
        from_dict_all items = Returned bs ->
        exists out, load_from_file self (Some text) ReadOk
                    = Some (Returned (set_books self bs), out)).
Proof.
  repeat split.
  - eexists. split; [reflexivity|]. intros m [E | []]. discriminate E.
  - intros text. eexists. split; [reflexivity|]. right. now left.
  - intros text E. unfold load_from_file. rewrite E.
    eexists. split; [reflexivity|]. right. now left.
  - intros text items bs E Hb. unfold load_from_file, load_books.
    rewrite E. cbn [iterate bind]. rewrite Hb. eexists. reflexivity.
Qed.

(** C8, where the code departs from it: a catalog file that is valid
    JSON but not a list of records is not treated as corrupted.  On a
    file that holds a single record, and on one that holds a number,
    [load_from_file] raises an exception it does not catch, and so does
    the constructor of the inventory. *)
Theorem load_wrong_shape_raises :
  Json.loads file_single_record
  = inr (JObj [("title", JStr "Dune")])
  /\ load_from_file (mkInventory "catalog.json" [])
       (Some file_single_record) ReadOk
     = Some (Raised AttributeError, [])
  /\ LibraryInventory_init "catalog.json" (Some file_single_record) ReadOk
     = Some (Raised AttributeError, [])
  /\ LibraryInventory_init "catalog.json" (Some "5") ReadOk
     = Some (Raised TypeError, []).
Proof. repeat split. Qed.

(** C4, where the code departs from it: [load_from_file] does not check
    ISBNs.  From a file with two records of ISBN 1 it builds a catalog of
    two books with the same ISBN. *)
Theorem load_keeps_duplicates :
  exists loaded out,
    LibraryInventory_init "catalog.json" (Some file_duplicates) ReadOk
    = Some (Returned loaded, out)
    /\ books loaded = [mkBook EmptyString EmptyString "1" "available";
                       mkBook EmptyString EmptyString "1" "available"]
    /\ ~ unique_isbn (books loaded).
Proof.
  eexists _, _. split; [reflexivity|]. split; [reflexivity|].
  unfold unique_isbn. cbn. intros H. inversion H as [|x l Hnin _].
  apply Hnin. now left.
Qed.

Lemma from_dict_ok (data : json) (b : Book) :
  from_dict data = Returned b -> Book_ok b.
Proof.
  destruct data as [| | | |items|d]; try discriminate.
  unfold from_dict.
  destruct (as_str (dict_get d "title" (JStr EmptyString))) as [t|];
    [|discriminate].
  destruct (as_str (dict_get d "author" (JStr EmptyString))) as [a|];
    [|discriminate].
  destruct (as_str (dict_get d "isbn" (JStr EmptyString))) as [i|];
    [|discriminate].
  destruct (as_str (dict_get d "status" (JStr "available"))) as [s|];
    [|discriminate].
  cbn [bind]. intros [= <-]. apply Book_init_ok.
Qed.

Lemma from_dict_all_ok (items : list json) :
  forall bs, from_dict_all items = Returned bs -> Forall Book_ok bs.
Proof.
  induction items as [|item items IH]; intros bs; cbn [from_dict_all].
  - intros [= <-]. constructor.
  - destruct (from_dict item) as [b|] eqn:Eb; [|discriminate].
    destruct (from_dict_all items) as [bs'|]; [|discriminate].
    cbn [bind]. intros [= <-].
    constructor; [now apply (from_dict_ok item) | now apply IH].
Qed.

(** Whatever the file holds, the records of a catalog that
    [load_from_file] returns satisfy the record invariant. *)
Lemma load_from_file_ok (self loaded : LibraryInventory) (st : store)
    (env : read_env) (out : list event) :
  load_from_file self st env = Some (Returned loaded, out) ->
  Forall Book_ok (books loaded).
Proof.
  unfold load_from_file.
  destruct st as [text|]; [|intros [= <- _]; constructor].
  destruct env; [|intros [= <- _]; constructor].
  destruct (Json.loads text) as [[]|data]; try discriminate;
    [intros [= <- _]; constructor|].
  unfold load_books.
  destruct (iterate data) as [items|]; [|discriminate]. cbn [bind].
  destruct (from_dict_all items) as [bs|] eqn:E; [|discriminate].
  intros [= <- _]. now apply (from_dict_all_ok items).
Qed.

(** The scenario of the specification: Dune is added, added again,
    issued twice, returned, and the catalog is saved and loaded. *)
Example scenario_dune :
  let dune := Book_init "Dune" "Herbert" "111" "available" in
  let c0 := mkInventory "catalog.json" [] in
  let c1 := fst (add_book c0 dune) in
  let c2 := fst (add_book c1 dune) in
  let c3 := fst (issue_book c2 "111") in
  let c4 := fst (issue_book c3 "111") in
  let c5 := fst (Inventory_return_book c4 "111") in
  let st := snd (fst (save_to_file c5 None WriteOk)) in
  List.length (books c1) = 1
  /\ c2 = c1 /\ In (Print msg_duplicate) (snd (add_book c1 dune))
  /\ map status (books c3) = ["issued"]
  /\ In (Print "Book is already issued.") (snd (issue_book c3 "111"))
  /\ c4 = c3
  /\ map status (books c5) = ["available"]
  /\ LibraryInventory_init "catalog.json" st ReadOk
     = Some (Returned c5,
             [LogInfo "Catalog loaded successfully from file."]).
Proof.
  cbv zeta. repeat split; try reflexivity.
  - now left.
  - now left.
Qed.

End PersistenceFacts.

(* ------------------------------------------------------------------ *)
(** ** A save that fails *)

Section SaveFailureFacts.

(** C7, as the code has it: when a save fails, the inventory in memory
    is the one before the call and the failure message is printed; the
    call returns.  The file is the one before the call only when it
    could not be opened: once opened for writing it holds the part of the
    new text that was written before the failure, nothing of the old. *)
Theorem save_failure_spec (self : LibraryInventory) (st : store)
    (env : write_env) :
  env <> WriteOk ->
  let r := save_to_file self st env in
  fst (fst r) = self
  /\ In (Print msg_save_error) (snd r)
  /\ (env = OpenOSError -> snd (fst r) = st)
  /\ (forall n, env = WriteOSError n ->
        snd (fst r)
        = Some (take n (Json.dumps (map to_dict (books self))))).
Proof.
  intros Henv. destruct env as [| |k]; [contradiction| |]; cbn.
  - repeat split; auto. intros n E. discriminate E.
  - repeat split; auto.
    + intros E. discriminate E.
    + now intros n [= ->].
Qed.

Lemma save_failure_spec_witness :
  let self := mkInventory "catalog.json"
                [mkBook "Dune" "Herbert" "111" "available"] in
  fst (fst (save_to_file self (Some "[]") (WriteOSError 1))) = self
  /\ snd (fst (save_to_file self (Some "[]") (WriteOSError 1))) = Some "[".
Proof.
  intros self.
  assert (Henv : WriteOSError 1 <> WriteOk) by discriminate.
  destruct (save_failure_spec self (Some "[]") (WriteOSError 1) Henv)
    as (Hself & _ & _ & Hfile).
  split; [exact Hself|]. exact (Hfile 1 eq_refl).
Defined.

(** C7 fails as stated: a valid catalog file with one book, a second
    book added, and a save that fails after seven characters.  The file
    is then the beginning of the new text; the next load finds it
    corrupted and starts empty. *)
Lemma save_failure_truncates_file :
  let old := mkInventory "catalog.json"
               [mkBook "Dune" "Herbert" "111" "available"] in
  let st := snd (fst (save_to_file old None WriteOk)) in
  let self := fst (add_book old (Book_init "Emma" "Austen" "222" "issued")) in
  let st' := snd (fst (save_to_file self st (WriteOSError 7))) in
  load_from_file old st ReadOk
  = Some (Returned old, [LogInfo "Catalog loaded successfully from file."])
  /\ st' = Some (String "[" (String Json.newline "    {"))
  /\ st' <> st
  /\ load_from_file self st' ReadOk
     = Some (Returned (set_books self []),
             [LogError "JSON decode error while loading catalog: ";
              Print msg_corrupted])
  /\ ~ (forall (inv : LibraryInventory) (s : store) (env : write_env),
          env <> WriteOk -> snd (fst (save_to_file inv s env)) = s).
Proof.
  cbv zeta. split; [reflexivity|]. split; [reflexivity|].
  split; [discriminate|]. split; [reflexivity|].
  intros H.
  specialize (H (mkInventory "catalog.json" []) None (WriteOSError 0)).
  discriminate H. discriminate.
Qed.

End SaveFailureFacts.

(* ------------------------------------------------------------------ *)
(** ** What the menu operations preserve *)

Section ReachableFacts.

Lemma find_isbn_found (bs : list Book) (i : string) (b : Book) :
  find_isbn bs i = Some b -> isbn b = i /\ In b bs.
Proof.
  induction bs as [|x bs IH]; simpl; [discriminate|].
  destruct (String.eqb_spec (isbn x) i) as [E | E].
  - intros [= <-]. auto.
  - intros H. destruct (IH H). auto.
Qed.

Lemma write_back_isbn (bs : list Book) (i : string) (b' : Book) :
  isbn b' = i -> map isbn (write_back bs i b') = map isbn bs.
Proof.
  intros Hb. induction bs as [|x bs IH]; simpl; [reflexivity|].
  destruct (String.eqb_spec (isbn x) i) as [E | E]; simpl.
  - now rewrite Hb, E.
  - now rewrite IH.
Qed.

Lemma write_back_ok (bs : list Book) (i : string) (b' : Book) :
  Forall Book_ok bs -> Book_ok b' -> Forall Book_ok (write_back bs i b').
Proof.
  intros Hbs Hb. induction Hbs as [|x bs Hx Hbs IH]; simpl; [constructor|].
  destruct (String.eqb (isbn x) i); constructor; assumption.
Qed.

Lemma NoDup_snoc {A : Type} (l : list A) (x : A) :
  NoDup l -> ~ In x l -> NoDup (l ++ [x])%list.
Proof.
  induction 1 as [|y l Hy Hl IH]; simpl; intros Hx.
  - constructor; [exact Hx | constructor].
  - constructor.
    + rewrite in_app_iff. intros [H | [H | []]]; [now apply Hy|].
      apply Hx. now left.
    + apply IH. intros H. apply Hx. now right.
Qed.

(** [add_book] keeps the ISBNs of the catalog distinct. *)
Lemma add_book_unique (self : LibraryInventory) (book : Book) :
  unique_isbn (books self) ->
  unique_isbn (books (fst (add_book self book))).
Proof.
  unfold add_book, search_by_isbn, unique_isbn. intros Hu.
  destruct (find_isbn (books self) (isbn book)) as [b|] eqn:E; simpl;
    [exact Hu|].
  rewrite map_app. simpl. apply NoDup_snoc; [exact Hu|].
  intros Hin. apply in_map_iff in Hin. destruct Hin as (b & Hb & Hin).
  apply find_isbn_none in E. apply E. now exists b.
Qed.

Lemma issue_isbn (b : Book) : isbn (snd (issue b)) = isbn b.
Proof. unfold issue. now destruct (String.eqb (status b) "issued"). Qed.

Lemma return_book_isbn (b : Book) : isbn (snd (return_book b)) = isbn b.
Proof.
  unfold return_book. now destruct (String.eqb (status b) "available").
Qed.

Lemma issue_book_books (self : LibraryInventory) (i : string) :
  books (fst (issue_book self i))
  = match search_by_isbn self i with
    | None => books self
    | Some b => write_back (books self) i (snd (issue b))
    end.
Proof.
  unfold issue_book. destruct (search_by_isbn self i) as [b|]; [|reflexivity].
  destruct (issue b) as [[] b']; reflexivity.
Qed.

Lemma return_book_books (self : LibraryInventory) (i : string) :
  books (fst (Inventory_return_book self i))
  = match search_by_isbn self i with
    | None => books self
    | Some b => write_back (books self) i (snd (return_book b))
    end.
Proof.
  unfold Inventory_return_book.
  destruct (search_by_isbn self i) as [b|]; [|reflexivity].
  destruct (return_book b) as [[] b']; reflexivity.
Qed.

(** Without a file read, the catalog always has distinct ISBNs and
    records that satisfy the record invariant. *)
Lemma reachable_invariant (self : LibraryInventory) :
  reachable self -> unique_isbn (books self) /\ Forall Book_ok (books self).
Proof.
  induction 1 as [path | self t a i s _ [IHu IHo] | self i _ [IHu IHo]
                  | self i _ [IHu IHo]].
  - split; constructor.
  - split; [now apply add_book_unique|].
    unfold add_book. destruct (search_by_isbn self _); simpl; [exact IHo|].
    apply Forall_app. split; [exact IHo|].
    constructor; [apply Book_init_ok | constructor].
  - rewrite issue_book_books. unfold search_by_isbn.
    destruct (find_isbn (books self) i) as [b|] eqn:E; [|now split].
    apply find_isbn_found in E. destruct E as [Ei Hin]. split.
    + unfold unique_isbn. rewrite write_back_isbn; [exact IHu|].
      now rewrite issue_isbn.
    + apply write_back_ok; [exact IHo|]. apply issue_ok.
      rewrite Forall_forall in IHo. now apply IHo.
  - rewrite return_book_books. unfold search_by_isbn.
    destruct (find_isbn (books self) i) as [b|] eqn:E; [|now split].
    apply find_isbn_found in E. destruct E as [Ei Hin]. split.
    + unfold unique_isbn. rewrite write_back_isbn; [exact IHu|].
      now rewrite return_book_isbn.
    + apply write_back_ok; [exact IHo|]. apply return_book_ok.
      rewrite Forall_forall in IHo. now apply IHo.
Qed.

End ReachableFacts.

(* ------------------------------------------------------------------ *)
(** * Further properties of the code *)

(** ** Book *)

Section BookMore.

Import PyStr PyStrFacts.

Lemma lstrip_split (s : string) :
  exists pre, s = pre ++ lstrip s /\ all_space pre = true.
Proof.
  induction s as [|c s (pre & E & Hp)].
  - now exists EmptyString.
  - simpl. destruct (isspace c) eqn:Ec.
    + exists (String c pre). simpl. rewrite Ec, Hp. now rewrite <- E.
    + now exists EmptyString.
Qed.

Lemma rstrip_split (s : string) :
  exists post, s = rstrip s ++ post /\ all_space post = true.
Proof.
  induction s as [|c s (post & E & Hp)].
  - now exists EmptyString.
  - simpl. destruct (rstrip s) as [|d r] eqn:Er.
    + simpl in E. subst post. destruct (isspace c) eqn:Ec.
      * exists (String c s). simpl. now rewrite Ec, Hp.
      * exists s. now split.
    + exists post. split; [|exact Hp]. simpl in *. now rewrite <- E.
Qed.

Lemma strip_split (s : string) :
  exists pre post,
    s = pre ++ strip s ++ post
    /\ all_space pre = true /\ all_space post = true.
Proof.
  destruct (lstrip_split s) as (pre & E1 & Hpre).
  destruct (rstrip_split (lstrip s)) as (post & E2 & Hpost).
  exists pre, post. unfold strip. now rewrite <- E2, <- E1.
Qed.

(** X1: the constructor loses nothing but whitespace at the two ends of
    a text field: each of title, author and ISBN it was given is the
    stored field between a prefix and a suffix made of whitespace only,
    so inner whitespace and every other character are kept. *)
Theorem Book_init_keeps_inner_text (t a i s : string) :
  let b := Book_init t a i s in
  (exists pre post, t = pre ++ title b ++ post
                    /\ all_space pre = true /\ all_space post = true)
  /\ (exists pre post, a = pre ++ author b ++ post
                       /\ all_space pre = true /\ all_space post = true)
  /\ (exists pre post, i = pre ++ isbn b ++ post
                       /\ all_space pre = true /\ all_space post = true).
Proof.
  cbv zeta. unfold Book_init. cbn [title author isbn].
  repeat split; apply strip_split.
Qed.

(** X2: how [issue] and [return_book] compose.  A second [issue] fails
    and changes nothing; [return_book] after [issue] succeeds and leaves
    the status "available", [issue] after [return_book] succeeds and
    leaves it "issued"; on a book that was available, [issue] then
    [return_book] gives the book back.  [is_available] is False after
    [issue], True after [return_book], and [return_book] succeeds
    exactly when it was False. *)
Theorem issue_return_compose (b : Book) :
  issue (snd (issue b)) = (false, snd (issue b))
  /\ return_book (snd (return_book b)) = (false, snd (return_book b))
  /\ return_book (snd (issue b))
     = (true, mkBook (title b) (author b) (isbn b) "available")
  /\ issue (snd (return_book b))
     = (true, mkBook (title b) (author b) (isbn b) "issued")
  /\ (status b = "available" -> snd (return_book (snd (issue b))) = b)
  /\ (status b = "issued" -> snd (issue (snd (return_book b))) = b)
  /\ is_available (snd (issue b)) = false
  /\ is_available (snd (return_book b)) = true
  /\ fst (return_book b) = negb (is_available b).
Proof.
  destruct b as [t a i s]. unfold issue, return_book, is_available.
  cbn [status title author isbn].
  destruct (String.eqb_spec s "issued") as [Ei | Ei];
    destruct (String.eqb_spec s "available") as [Ea | Ea];
    cbn [fst snd status title author isbn String.eqb Ascii.eqb Bool.eqb negb];
    try (subst s; discriminate);
    repeat split; intros; subst; try reflexivity; try congruence.
Qed.

(** X3: a book that goes through [to_dict] and [from_dict] comes back as
    the constructor rebuilds it from its own fields.  Rebuilding twice is
    rebuilding once, and the book comes back unchanged exactly when it
    satisfies the record invariant (trimmed fields, one of the two
    statuses). *)
Theorem to_dict_from_dict (b : Book) :
  from_dict (json_of_dict (to_dict b)) = Returned (renormalize b)
  /\ renormalize (renormalize b) = renormalize b
  /\ (renormalize b = b <-> Book_ok b).
Proof.
  split; [reflexivity|]. split.
  - apply (Book_init_fixed (renormalize b)). apply Book_init_ok.
  - split.
    + intros <-. apply Book_init_ok.
    + apply Book_init_fixed.
Qed.

Lemma str_field_cases (d : pydict json) (k default : string) :
  (str_field d k = true
   /\ as_str (dict_get d k (JStr default))
      = Returned (field_str d k default))
  \/ (str_field d k = false
      /\ as_str (dict_get d k (JStr default)) = Raised AttributeError).
Proof.
  unfold str_field, field_str. rewrite dict_get_lookup.
  destruct (dict_lookup d k) as [[]|]; simpl; auto.
Qed.

(** X4: when [from_dict] succeeds and when it raises.  It returns a book
    exactly on a dict in which each of title, author, isbn and status is
    absent or bound to a string, and that book satisfies the record
    invariant; on anything else (a value that is not a dict, a key bound
    to null, a number, a list, ...) it raises AttributeError, never
    another exception. *)
Theorem from_dict_outcome (data : json) :
  (well_typed_record data = true ->
     exists b, from_dict data = Returned b /\ Book_ok b)
  /\ (well_typed_record data = false ->
      from_dict data = Raised AttributeError).
Proof.
  destruct data as [| | | |items|d]; try (split; [discriminate|reflexivity]).
  unfold well_typed_record, from_dict.
  destruct (str_field_cases d "title" EmptyString) as [[-> ->] | [-> ->]];
    [|split; [discriminate | reflexivity]].
  destruct (str_field_cases d "author" EmptyString) as [[-> ->] | [-> ->]];
    [|split; [discriminate | reflexivity]].
  destruct (str_field_cases d "isbn" EmptyString) as [[-> ->] | [-> ->]];
    [|split; [discriminate | reflexivity]].
  destruct (str_field_cases d "status" "available") as [[-> ->] | [-> ->]];
    [|split; [discriminate | reflexivity]].
  split; [|discriminate]. intros _. eexists. split; [reflexivity|].
  apply Book_init_ok.
Qed.

(** X5: [from_dict] looks at four keys only.  Two dicts that agree on
    title, author, isbn and status give the same result, whatever else
    they hold and in whatever order. *)
Theorem from_dict_four_keys (d d' : pydict json) :
  dict_lookup d "title" = dict_lookup d' "title" ->
  dict_lookup d "author" = dict_lookup d' "author" ->
  dict_lookup d "isbn" = dict_lookup d' "isbn" ->
  dict_lookup d "status" = dict_lookup d' "status" ->
  from_dict (JObj d) = from_dict (JObj d').
Proof.
  intros Ht Ha Hi Hs. unfold from_dict.
  rewrite !dict_get_lookup, Ht, Ha, Hi, Hs. reflexivity.
Qed.

Lemma from_dict_four_keys_witness :
  from_dict (JObj [("isbn", JStr "111"); ("title", JStr "Dune")])
  = from_dict (JObj [("title", JStr "Dune"); ("pages", JNum "412");
                     ("isbn", JStr "111"); ("pages", JNull)]).
Proof.
  apply from_dict_four_keys; reflexivity.
Defined.

End BookMore.

(* ------------------------------------------------------------------ *)
(** ** Looking up and adding *)

Section CatalogMore.

Import PyStr PyStrFacts.

Lemma find_isbn_app (bs cs : list Book) (j : string) :
  find_isbn (bs ++ cs) j
  = match find_isbn bs j with
    | Some b => Some b
    | None => find_isbn cs j
    end.
Proof.
  induction bs as [|x bs IH]; simpl; [reflexivity|].
  destruct (String.eqb (isbn x) j); [reflexivity | exact IH].
Qed.

(** X6: [search_by_isbn] returns the first book of the catalog whose
    ISBN is the string asked for, character for character: every book
    before it has another ISBN.  It returns None exactly when no book has
    that ISBN. *)
Theorem search_by_isbn_first_match (self : LibraryInventory) (i : string) :
  (forall b, search_by_isbn self i = Some b <->
     exists pre post,
       books self = (pre ++ b :: post)%list /\ isbn b = i
       /\ forall x, In x pre -> isbn x <> i)
  /\ (search_by_isbn self i = None <->
      forall x, In x (books self) -> isbn x <> i).
Proof.
  unfold search_by_isbn. generalize (books self) as bs. intros bs. split.
  - induction bs as [|x bs IH]; intros b; simpl.
    + split; [discriminate|]. intros (pre & post & E & _).
      destruct pre; discriminate E.
    + destruct (String.eqb_spec (isbn x) i) as [Ex | Ex].
      * split.
        -- intros [= <-]. exists [], bs. repeat split; [exact Ex|].
           intros y [].
        -- intros (pre & post & E & Hb & Hpre). destruct pre as [|p pre].
           ++ now injection E as ->.
           ++ injection E as -> _. exfalso. apply (Hpre p); [now left|].
              exact Ex.
      * rewrite IH. split.
        -- intros (pre & post & E & Hb & Hpre).
           exists (x :: pre), post. rewrite E. repeat split; [exact Hb|].
           intros y [<- | Hy]; [exact Ex | now apply Hpre].
        -- intros (pre & post & E & Hb & Hpre). destruct pre as [|p pre].
           ++ injection E as -> _. contradiction.
           ++ injection E as _ E. exists pre, post.
              repeat split; [exact E | exact Hb|].
              intros y Hy. apply Hpre. now right.
  - rewrite find_isbn_none. split.
    + intros H x Hx E. apply H. now exists x.
    + intros H (x & Hx & E). now apply (H x).
Qed.

Lemma search_after_add (self : LibraryInventory) (book : Book)
    (j : string) :
  search_by_isbn (fst (add_book self book)) j
  = match search_by_isbn self j with
    | Some b => Some b
    | None => if String.eqb (isbn book) j then Some book else None
    end.
Proof.
  unfold add_book, search_by_isbn.
  destruct (find_isbn (books self) (isbn book)) as [b|] eqn:E; cbn.
  - destruct (find_isbn (books self) j) as [b'|] eqn:Ej; [reflexivity|].
    destruct (String.eqb_spec (isbn book) j) as [<- | _]; [|reflexivity].
    congruence.
  - rewrite find_isbn_app. simpl.
    destruct (find_isbn (books self) j); [reflexivity|].
    now destruct (String.eqb (isbn book) j).
Qed.

(** X7: looking up after adding.  After [add_book], a lookup that found
    a book before finds the same book; a lookup of the ISBN of the book
    just offered finds that book when its ISBN was new (and the book that
    already had it otherwise); every other lookup still finds nothing. *)
Theorem add_book_then_search (self : LibraryInventory) (book : Book)
    (j : string) :
  search_by_isbn (fst (add_book self book)) j
  = match search_by_isbn self j with
    | Some b => Some b
    | None => if String.eqb (isbn book) j then Some book else None
    end.
Proof. apply search_after_add. Qed.

(** X8: adding the same book a second time does nothing: the second
    call always finds the ISBN, leaves the inventory as the first call
    left it and prints the duplicate message. *)
Theorem add_book_twice (self : LibraryInventory) (book : Book) :
  let once := fst (add_book self book) in
  fst (add_book once book) = once
  /\ In (Print msg_duplicate) (snd (add_book once book))
  /\ List.length (books once) <= S (List.length (books self)).
Proof.
  cbv zeta.
  assert (Hs : exists b,
             search_by_isbn (fst (add_book self book)) (isbn book) = Some b).
  { rewrite search_after_add.
    destruct (search_by_isbn self (isbn book)) as [b|]; [now exists b|].
    rewrite String.eqb_refl. now exists book. }
  destruct Hs as [b Hb]. split; [|split].
  - unfold add_book at 1. now rewrite Hb.
  - unfold add_book at 1. rewrite Hb. now left.
  - unfold add_book. destruct (search_by_isbn self (isbn book)); cbn.
    + lia.
    + rewrite length_app. simpl. lia.
Qed.

(** X9: on a catalog whose ISBNs are distinct, [add_book] keeps them
    distinct, and every book stays at the position it had. *)
Theorem add_book_keeps_unique (self : LibraryInventory) (book : Book) :
  unique_isbn (books self) ->
  unique_isbn (books (fst (add_book self book)))
  /\ forall n b, nth_error (books self) n = Some b ->
                 nth_error (books (fst (add_book self book))) n = Some b.
Proof.
  intros Hu. split; [now apply add_book_unique|].
  intros n b Hn. unfold add_book.
  destruct (search_by_isbn self (isbn book)); cbn; [exact Hn|].
  rewrite nth_error_app1; [exact Hn|].
  apply nth_error_Some. congruence.
Qed.

Lemma add_book_keeps_unique_witness :
  let self := mkInventory "catalog.json"
                [mkBook "Dune" "Herbert" "111" "issued"] in
  unique_isbn
    (books (fst (add_book self (mkBook "Emma" "Austen" "222" "available"))))
  /\ unique_isbn
       (books (fst (add_book self (mkBook "Dune II" "Herbert" "111"
                                     "available")))).
Proof.
  intros self.
  assert (Hu : unique_isbn (books self)).
  { unfold unique_isbn. simpl. constructor; [intros [] | constructor]. }
  split.
  - exact (proj1 (add_book_keeps_unique self _ Hu)).
  - exact (proj1 (add_book_keeps_unique self _ Hu)).
Defined.


(** X11: the title search after [add_book].  When the ISBN offered was
    already in the catalog the results are the ones before; otherwise
    they are the ones before, followed by the new book if its title
    matches. *)
Theorem search_by_title_after_add (self : LibraryInventory) (book : Book)
    (t : string) :
  search_by_title (fst (add_book self book)) t
  = match search_by_isbn self (isbn book) with
    | Some _ => search_by_title self t
    | None =>
        (search_by_title self t
         ++ (if contains (lower t) (lower (title book))
             then [book] else []))%list
    end.
Proof.
  unfold add_book, search_by_title.
  destruct (search_by_isbn self (isbn book)); cbn; [reflexivity|].
  rewrite filter_app. reflexivity.
Qed.

End CatalogMore.

(* ------------------------------------------------------------------ *)
(** ** Issuing and returning by ISBN *)

Section IssueReturnMore.

Lemma find_isbn_write_back (bs : list Book) (i j : string) (b' : Book) :
  isbn b' = i ->
  find_isbn (write_back bs i b') j
  = if String.eqb i j
    then match find_isbn bs i with Some _ => Some b' | None => None end
    else find_isbn bs j.
Proof.
  intros Hb. induction bs as [|x bs IH]; simpl.
  - now destruct (String.eqb i j).
  - destruct (String.eqb_spec (isbn x) i) as [Ex | Ex]; simpl.
    + rewrite Hb, Ex. destruct (String.eqb_spec i j) as [Ej | Ej];
        [reflexivity|].
      reflexivity.
    + destruct (String.eqb_spec (isbn x) j) as [Exj | Exj].
      * destruct (String.eqb_spec i j) as [Ej | Ej]; [congruence|].
        reflexivity.
      * exact IH.
Qed.

Lemma write_back_found (bs : list Book) (i : string) (b : Book) :
  find_isbn bs i = Some b -> write_back bs i b = bs.
Proof.
  induction bs as [|x bs IH]; simpl; [reflexivity|].
  destruct (String.eqb (isbn x) i).
  - now intros [= ->].
  - intros H. now rewrite IH.
Qed.

Lemma write_back_twice (bs : list Book) (i : string) (b1 b2 : Book) :
  isbn b1 = i ->
  write_back (write_back bs i b1) i b2 = write_back bs i b2.
Proof.
  intros Hb. induction bs as [|x bs IH]; simpl; [reflexivity|].
  destruct (String.eqb_spec (isbn x) i) as [Ex | Ex]; simpl.
  - now rewrite Hb, String.eqb_refl.
  - destruct (String.eqb_spec (isbn x) i); [contradiction|].
    now rewrite IH.
Qed.

Lemma write_back_map {A : Type} (f : Book -> A) (bs : list Book)
    (i : string) (b b' : Book) :
  find_isbn bs i = Some b -> f b' = f b ->
  map f (write_back bs i b') = map f bs.
Proof.
  intros Hfind Hf. revert Hfind.
  induction bs as [|x bs IH]; simpl; [reflexivity|].
  destruct (String.eqb (isbn x) i); simpl.
  - intros [= ->]. now rewrite Hf.
  - intros H. now rewrite IH.
Qed.

Lemma write_back_nth (bs : list Book) (i : string) (b' : Book) :
  forall n b,
    nth_error bs n = Some b ->
    (isbn b <> i
     \/ exists m b0, m < n /\ nth_error bs m = Some b0 /\ isbn b0 = i) ->
    nth_error (write_back bs i b') n = Some b.
Proof.
  induction bs as [|x bs IH]; intros n b Hn Hcase; [destruct n; discriminate|].
  simpl. destruct (String.eqb_spec (isbn x) i) as [Ex | Ex].
  - destruct n as [|n]; [|exact Hn].
    injection Hn as ->. destruct Hcase as [H | (m & b0 & Hm & _)];
      [contradiction | lia].
  - destruct n as [|n]; [exact Hn|]. simpl in *. apply IH; [exact Hn|].
    destruct Hcase as [H | (m & b0 & Hm & Hb0 & Hi)]; [now left|].
    right. destruct m as [|m].
    + injection Hb0 as ->. contradiction.
    + exists m, b0. repeat split; [lia | exact Hb0 | exact Hi].
Qed.

Lemma issue_fields (b : Book) :
  snd (issue b) = mkBook (title b) (author b) (isbn b) "issued".
Proof.
  destruct b as [t a i s]. unfold issue; simpl.
  destruct (String.eqb_spec s "issued") as [-> | _]; reflexivity.
Qed.

Lemma return_book_fields (b : Book) :
  snd (return_book b) = mkBook (title b) (author b) (isbn b) "available".
Proof.
  destruct b as [t a i s]. unfold return_book; simpl.
  destruct (String.eqb_spec s "available") as [-> | _]; reflexivity.
Qed.

Lemma issue_book_file (self : LibraryInventory) (i : string) :
  data_file (fst (issue_book self i)) = data_file self.
Proof.
  unfold issue_book. destruct (search_by_isbn self i) as [b|]; [|reflexivity].
  destruct (issue b) as [[] b']; reflexivity.
Qed.

Lemma return_book_file (self : LibraryInventory) (i : string) :
  data_file (fst (Inventory_return_book self i)) = data_file self.
Proof.
  unfold Inventory_return_book.
  destruct (search_by_isbn self i) as [b|]; [|reflexivity].
  destruct (return_book b) as [[] b']; reflexivity.
Qed.

Lemma inventory_eq (self self' : LibraryInventory) :
  data_file self' = data_file self -> books self' = books self ->
  self' = self.
Proof. destruct self, self'. simpl. now intros -> ->. Qed.

(** X12: what [issue_book] changes.  The file name and the titles,
    authors and ISBNs of the catalog, in order, are as before.  When no
    book has the ISBN the inventory is unchanged and "Book not found." is
    printed.  When one has, the first such book has status "issued"
    afterwards and is what a lookup of the ISBN returns, and "Book is
    already issued." is printed exactly when it was issued before.  A
    lookup of any other ISBN returns what it returned before. *)
Theorem issue_book_effect (self : LibraryInventory) (i : string) :
  let self' := fst (issue_book self i) in
  let out := snd (issue_book self i) in
  data_file self' = data_file self
  /\ map title (books self') = map title (books self)
  /\ map author (books self') = map author (books self)
  /\ map isbn (books self') = map isbn (books self)
  /\ (search_by_isbn self i = None ->
        self' = self /\ In (Print "Book not found.") out)
  /\ (forall b, search_by_isbn self i = Some b ->
        search_by_isbn self' i
        = Some (mkBook (title b) (author b) i "issued")
        /\ (In (Print "Book is already issued.") out
            <-> status b = "issued"))
  /\ (forall j, j <> i -> search_by_isbn self' j = search_by_isbn self j).
Proof.
  cbv zeta. split; [apply issue_book_file|].
  unfold search_by_isbn. rewrite !issue_book_books. unfold search_by_isbn.
  destruct (find_isbn (books self) i) as [b|] eqn:E.
  - pose proof (find_isbn_found _ _ _ E) as [Ei _].
    rewrite issue_fields.
    split; [apply (write_back_map _ _ _ b); [exact E | reflexivity]|].
    split; [apply (write_back_map _ _ _ b); [exact E | reflexivity]|].
    split; [apply (write_back_map _ _ _ b); [exact E | reflexivity]|].
    split; [discriminate|]. split.
    + intros b1 [= <-]. split.
      * rewrite find_isbn_write_back by exact Ei.
        now rewrite String.eqb_refl, E, Ei.
      * unfold issue_book, search_by_isbn. rewrite E. unfold issue.
        destruct (String.eqb_spec (status b) "issued") as [Es | Es]; cbn.
        -- split; [intros _; exact Es | intros _; now left].
        -- split; [intros [H | [H | []]]; discriminate H | contradiction].
    + intros j Hj. rewrite find_isbn_write_back by exact Ei.
      destruct (String.eqb_spec i j); [congruence | reflexivity].
  - split; [reflexivity|]. split; [reflexivity|]. split; [reflexivity|].
    split; [|split; [discriminate | reflexivity]].
    intros _. split.
    + apply inventory_eq; [apply issue_book_file|].
      rewrite issue_book_books. unfold search_by_isbn. now rewrite E.
    + unfold issue_book, search_by_isbn. rewrite E. now left.
Qed.

(** X13: what [LibraryInventory.return_book] changes: the same as
    [issue_book] with "available" for "issued".  Titles, authors, ISBNs
    and the file name are kept; an unknown ISBN changes nothing and
    prints "Book not found."; otherwise the first book with the ISBN is
    available afterwards, and "Book is already available." is printed
    exactly when it was available before; lookups of other ISBNs are not
    affected. *)
Theorem return_book_effect (self : LibraryInventory) (i : string) :
  let self' := fst (Inventory_return_book self i) in
  let out := snd (Inventory_return_book self i) in
  data_file self' = data_file self
  /\ map title (books self') = map title (books self)
  /\ map author (books self') = map author (books self)
  /\ map isbn (books self') = map isbn (books self)
  /\ (search_by_isbn self i = None ->
        self' = self /\ In (Print "Book not found.") out)
  /\ (forall b, search_by_isbn self i = Some b ->
        search_by_isbn self' i
        = Some (mkBook (title b) (author b) i "available")
        /\ (In (Print "Book is already available.") out
            <-> status b = "available"))
  /\ (forall j, j <> i -> search_by_isbn self' j = search_by_isbn self j).
Proof.
  cbv zeta. split; [apply return_book_file|].
  unfold search_by_isbn. rewrite !return_book_books. unfold search_by_isbn.
  destruct (find_isbn (books self) i) as [b|] eqn:E.
  - pose proof (find_isbn_found _ _ _ E) as [Ei _].
    rewrite return_book_fields.
    split; [apply (write_back_map _ _ _ b); [exact E | reflexivity]|].
    split; [apply (write_back_map _ _ _ b); [exact E | reflexivity]|].
    split; [apply (write_back_map _ _ _ b); [exact E | reflexivity]|].
    split; [discriminate|]. split.
    + intros b1 [= <-]. split.
      * rewrite find_isbn_write_back by exact Ei.
        now rewrite String.eqb_refl, E, Ei.
      * unfold Inventory_return_book, search_by_isbn. rewrite E. unfold return_book.
        destruct (String.eqb_spec (status b) "available") as [Es | Es]; cbn.
        -- split; [intros _; exact Es | intros _; now left].
        -- split; [intros [H | [H | []]]; discriminate H | contradiction].
    + intros j Hj. rewrite find_isbn_write_back by exact Ei.
      destruct (String.eqb_spec i j); [congruence | reflexivity].
  - split; [reflexivity|]. split; [reflexivity|]. split; [reflexivity|].
    split; [|split; [discriminate | reflexivity]].
    intros _. split.
    + apply inventory_eq; [apply return_book_file|].
      rewrite return_book_books. unfold search_by_isbn. now rewrite E.
    + unfold Inventory_return_book, search_by_isbn. rewrite E. now left.
Qed.

(** X14: issuing twice is issuing once, returning twice is returning
    once, and on a book that was available [issue_book] followed by
    [return_book] gives back the inventory there was. *)
Theorem issue_book_return_book_compose (self : LibraryInventory)
    (i : string) :
  fst (issue_book (fst (issue_book self i)) i) = fst (issue_book self i)
  /\ fst (Inventory_return_book (fst (Inventory_return_book self i)) i)
     = fst (Inventory_return_book self i)
  /\ (forall b, search_by_isbn self i = Some b -> status b = "available" ->
        fst (Inventory_return_book (fst (issue_book self i)) i) = self).
Proof.
  split; [|split].
  - apply inventory_eq; [now rewrite !issue_book_file|].
    rewrite (issue_book_books (fst (issue_book self i))).
    unfold search_by_isbn. rewrite issue_book_books. unfold search_by_isbn.
    destruct (find_isbn (books self) i) as [b|] eqn:E; [|now rewrite E].
    pose proof (find_isbn_found _ _ _ E) as [Ei _].
    rewrite find_isbn_write_back by now rewrite issue_isbn.
    rewrite String.eqb_refl, E.
    rewrite write_back_twice by now rewrite issue_isbn.
    now rewrite !issue_fields.
  - apply inventory_eq; [now rewrite !return_book_file|].
    rewrite (return_book_books (fst (Inventory_return_book self i))).
    unfold search_by_isbn. rewrite return_book_books. unfold search_by_isbn.
    destruct (find_isbn (books self) i) as [b|] eqn:E; [|now rewrite E].
    pose proof (find_isbn_found _ _ _ E) as [Ei _].
    rewrite find_isbn_write_back by now rewrite return_book_isbn.
    rewrite String.eqb_refl, E.
    rewrite write_back_twice by now rewrite return_book_isbn.
    now rewrite !return_book_fields.
  - intros b E Hs. unfold search_by_isbn in E.
    pose proof (find_isbn_found _ _ _ E) as [Ei _].
    apply inventory_eq; [now rewrite return_book_file, issue_book_file|].
    rewrite return_book_books. unfold search_by_isbn.
    rewrite issue_book_books. unfold search_by_isbn. rewrite E.
    rewrite find_isbn_write_back by now rewrite issue_isbn.
    rewrite String.eqb_refl, E.
    rewrite write_back_twice by now rewrite issue_isbn.
    rewrite return_book_fields, issue_fields. cbn [title author isbn].
    rewrite <- Hs. replace (mkBook (title b) (author b) (isbn b) (status b))
      with b by now destruct b.
    now apply write_back_found.
Qed.

(** X15: a book that stands behind another book with the same ISBN is
    out of reach: neither [issue_book] nor [return_book], with any ISBN,
    ever changes it. *)
Theorem shadowed_book_never_changes (self : LibraryInventory)
    (m n : nat) (b0 b : Book) (i : string) :
  m < n ->
  nth_error (books self) m = Some b0 ->
  nth_error (books self) n = Some b ->
  isbn b0 = isbn b ->
  nth_error (books (fst (issue_book self i))) n = Some b
  /\ nth_error (books (fst (Inventory_return_book self i))) n = Some b.
Proof.
  intros Hmn Hm Hn Hsame.
  assert (Hcase : isbn b <> i
                  \/ exists m b0, m < n /\ nth_error (books self) m = Some b0
                                  /\ isbn b0 = i).
  { destruct (String.eqb_spec (isbn b) i) as [E | E]; [|now left].
    right. exists m, b0. repeat split; [exact Hmn | exact Hm | congruence]. }
  rewrite issue_book_books, return_book_books.
  destruct (search_by_isbn self i); split;
    try exact Hn; now apply write_back_nth.
Qed.

Lemma shadowed_book_never_changes_witness :
  let self := mkInventory "catalog.json"
                [mkBook "Dune" "Herbert" "1" "available";
                 mkBook "Emma" "Austen" "1" "available"] in
  nth_error (books (fst (issue_book self "1"))) 1
  = Some (mkBook "Emma" "Austen" "1" "available").
Proof.
  intros self.
  refine (proj1 (shadowed_book_never_changes self 0 1
                   (mkBook "Dune" "Herbert" "1" "available")
                   (mkBook "Emma" "Austen" "1" "available") "1"
                   _ eq_refl eq_refl eq_refl)).
  lia.
Defined.

End IssueReturnMore.

(* ------------------------------------------------------------------ *)
(** ** More on loading and saving *)

Section PersistenceMore.

Import PyStr PyStrFacts JsonFacts.


(** X17: whatever the file holds, a catalog that [load_from_file]
    returns has the file name of the inventory and only records that
    satisfy the record invariant: trimmed fields and a status that is
    "available" or "issued". *)
Theorem load_result_invariant (self loaded : LibraryInventory) (st : store)
    (env : read_env) (out : list event) :
  load_from_file self st env = Some (Returned loaded, out) ->
  data_file loaded = data_file self /\ Forall Book_ok (books loaded).
Proof.
  intros H. split; [|now apply (load_from_file_ok self loaded st env out)].
  revert H. unfold load_from_file.
  destruct st as [text|]; [|now intros [= <- _]].
  destruct env; [|now intros [= <- _]].
  destruct (Json.loads text) as [[]|data]; try discriminate;
    [now intros [= <- _]|].
  destruct (load_books data); [|discriminate]. now intros [= <- _].
Qed.

Lemma load_result_invariant_witness :
  exists loaded,
    List.length (books loaded) = 2 /\ Forall Book_ok (books loaded).
Proof.
  exists (mkInventory "catalog.json"
            [mkBook EmptyString EmptyString "1" "available";
             mkBook EmptyString EmptyString "1" "available"]).
  split; [reflexivity|].
  exact (proj2 (load_result_invariant
                  (mkInventory "catalog.json" []) _
                  (Some file_duplicates) ReadOk _ eq_refl)).
Defined.







(** X20: a save that succeeds can always be loaded, whatever the books
    are.  The text written does not depend on what the file held; loading
    it raises nothing and prints no warning, and gives as many books as
    were saved, in order, each one as the constructor rebuilds it from
    its fields, so each satisfies the record invariant. *)
Theorem save_then_load_any (self other : LibraryInventory) (st : store) :
  let st' := snd (fst (save_to_file self st WriteOk)) in
  (forall st0, snd (fst (save_to_file self st0 WriteOk)) = st')
  /\ exists loaded out,
       load_from_file other st' ReadOk = Some (Returned loaded, out)
       /\ data_file loaded = data_file other
       /\ books loaded = map renormalize (books self)
       /\ List.length (books loaded) = List.length (books self)
       /\ Forall Book_ok (books loaded)
       /\ forall m, ~ In (Print m) out.
Proof.
  cbv zeta. split; [reflexivity|].
  rewrite load_after_save. eexists _, _. split; [reflexivity|].
  cbn [books data_file set_books].
  split; [reflexivity|]. split; [reflexivity|].
  split; [apply length_map|]. split.
  - apply Forall_forall. intros b Hb. apply in_map_iff in Hb.
    destruct Hb as (b0 & <- & _). apply Book_init_ok.
  - intros m [E | []]. discriminate E.
Qed.

Lemma dumps_inj_books (bs1 bs2 : list Book) :
  Json.dumps (map to_dict bs1) = Json.dumps (map to_dict bs2) ->
  map renormalize bs1 = map renormalize bs2.
Proof.
  intros E.
  pose proof (loads_dumps (map to_dict bs1)) as H1.
  pose proof (loads_dumps (map to_dict bs2)) as H2.
  rewrite E, H2 in H1. injection H1 as H1.
  pose proof (from_dict_all_rows bs1) as R1.
  pose proof (from_dict_all_rows bs2) as R2.
  rewrite <- H1, R2 in R1. now injection R1 as R1.
Qed.

(** X21: the file identifies the catalog.  Two inventories whose records
    satisfy the record invariant and whose saves write the same text hold
    the same books in the same order. *)
Theorem save_to_file_injective (self1 self2 : LibraryInventory)
    (st1 st2 : store) :
  Forall Book_ok (books self1) ->
  Forall Book_ok (books self2) ->
  snd (fst (save_to_file self1 st1 WriteOk))
  = snd (fst (save_to_file self2 st2 WriteOk)) ->
  books self1 = books self2.
Proof.
  intros H1 H2 E. cbn in E. injection E as E.
  apply dumps_inj_books in E.
  now rewrite (renormalize_fixed _ H1), (renormalize_fixed _ H2) in E.
Qed.

Lemma save_to_file_injective_witness :
  books (mkInventory "a.json" [mkBook "Dune" "Herbert" "111" "issued"])
  = books (mkInventory "b.json" [mkBook "Dune" "Herbert" "111" "issued"]).
Proof.
  apply (save_to_file_injective _ _ None (Some "[]")).
  - repeat (apply Forall_cons || apply Forall_nil).
    repeat (split; [split; reflexivity|]). right. reflexivity.
  - repeat (apply Forall_cons || apply Forall_nil).
    repeat (split; [split; reflexivity|]). right. reflexivity.
  - reflexivity.
Defined.

(** X22: what a successful save writes is a JSON list with one object
    per book, in catalog order, and each object has exactly the keys
    title, author, isbn and status, in that order, bound to the four
    fields of the book as strings. *)
Theorem save_writes_list_of_records (self : LibraryInventory) (st : store) :
  exists text,
    snd (fst (save_to_file self st WriteOk)) = Some text
    /\ Json.loads text
       = inr (JArr (map (fun b =>
                           JObj [("title", JStr (title b));
                                 ("author", JStr (author b));
                                 ("isbn", JStr (isbn b));
                                 ("status", JStr (status b))])
                        (books self))).
Proof.
  eexists. split; [reflexivity|].
  rewrite loads_dumps, map_map. reflexivity.
Qed.

End PersistenceMore.

(* ------------------------------------------------------------------ *)
(** ** The command-line layer *)

Module CliFacts.

Import PyStr PyStrFacts Cli.

(** X23: [get_non_empty_input] skips the blank lines, printing the
    prompt and the complaint once for each, and then either returns the
    stripped form of the first line that is not blank, which is not empty
    and has no whitespace at its ends, or meets the end of the input or
    Ctrl-C, prints the cancellation message and returns the empty string.
    The input left is what follows the line or the event it stopped at. *)
Theorem get_non_empty_input_spec (prompt : string) (inp : stdin) :
  let r := get_non_empty_input prompt inp in
  let value := fst (fst r) in
  let rest := snd (fst r) in
  let out := snd r in
  exists blank tail,
    Forall (fun s => strip s = EmptyString) blank
    /\ out = (flat_map (fun _ => [Prompt prompt; say msg_empty_input]) blank
              ++ Prompt prompt :: tail)%list
    /\ ((exists s, inp = (map Line blank ++ Line s :: rest)%list
                   /\ value = strip s /\ value <> EmptyString
                   /\ trimmed value /\ tail = [])
        \/ (value = EmptyString /\ tail = [say msg_cancelled_menu]
            /\ (inp = map Line blank /\ rest = []
                \/ exists e, (e = EOFError \/ e = KeyboardInterrupt)
                             /\ inp = (map Line blank ++ e :: rest)%list))).
Proof.
  cbv zeta. induction inp as [|e inp IH].
  - exists [], [say msg_cancelled_menu]. split; [constructor|].
    split; [reflexivity|]. right. repeat split. now left.
  - destruct e as [s| |].
    + cbn [get_non_empty_input]. destruct (strip s) as [|c v] eqn:Es.
      * destruct (get_non_empty_input prompt inp) as [[v' rest'] out'].
        cbn [fst snd] in *.
        destruct IH as (blank & tail & Hb & Ho & Hcase).
        exists (s :: blank), tail. split; [now constructor|].
        split; [cbn; now rewrite Ho|].
        destruct Hcase as [(s' & Hi & Hv & Hne & Ht & Htl)
                          | (Hv & Htl & [[Hi Hr] | (e & He & Hi)])].
        -- left. exists s'. cbn. now rewrite Hi.
        -- right. repeat split; try assumption. left. cbn.
           now rewrite Hi.
        -- right. repeat split; try assumption. right. exists e.
           split; [exact He|]. cbn. now rewrite Hi.
      * cbn [fst snd]. exists [], []. split; [constructor|].
        split; [reflexivity|]. left. exists s. rewrite Es.
        repeat split; try discriminate.
        -- pose proof (strip_trimmed s) as [H _]. now rewrite Es in H.
        -- pose proof (strip_trimmed s) as [_ H]. now rewrite Es in H.
    + exists [], [say msg_cancelled_menu]. split; [constructor|].
      split; [reflexivity|]. right. repeat split. right.
      exists EOFError. split; [now left | reflexivity].
    + exists [], [say msg_cancelled_menu]. split; [constructor|].
      split; [reflexivity|]. right. repeat split. right.
      exists KeyboardInterrupt. split; [now right | reflexivity].
Qed.

Lemma get_menu_choice_range (max_str_digits : nat) (inp : stdin) :
  let r := get_menu_choice max_str_digits inp in
  in_menu_range (fst (fst r)) = true
  /\ List.length (snd (fst r)) <= List.length inp
  /\ (fst (fst r) <> 6%Z -> List.length (snd (fst r)) < List.length inp).
Proof.
  cbv zeta. induction inp as [|e inp IH].
  - cbn. repeat split; try lia; reflexivity.
  - destruct e as [s| |].
    + cbn [get_menu_choice].
      destruct (py_int max_str_digits (strip s)) as [c|].
      * destruct (in_menu_range c) eqn:Ec.
        -- cbn [fst snd List.length]. rewrite Ec. repeat split; lia.
        -- destruct (get_menu_choice max_str_digits inp) as [[c' r'] o'].
           cbn [fst snd List.length] in *. destruct IH as (H1 & H2 & H3).
           repeat split; [exact H1 | lia | intros H; specialize (H3 H); lia].
      * destruct (get_menu_choice max_str_digits inp) as [[c' r'] o'].
        cbn [fst snd List.length] in *. destruct IH as (H1 & H2 & H3).
        repeat split; [exact H1 | lia | intros H; specialize (H3 H); lia].
    + cbn. repeat split; try lia; reflexivity.
    + cbn. repeat split; try lia; reflexivity.
Qed.

(** X24: [get_menu_choice] always returns a number from 1 to 6.  It
    skips every line that is not such a number, and returns the first
    that is; when the input ends or Ctrl-C comes before one, it returns
    6, the choice that saves and exits.  It never returns with more
    input than it was given, and with less when the choice is not 6. *)
Theorem get_menu_choice_spec (max_str_digits : nat) (inp : stdin) :
  let r := get_menu_choice max_str_digits inp in
  let choice := fst (fst r) in
  let rest := snd (fst r) in
  (1 <= choice <= 6)%Z
  /\ List.length rest <= List.length inp
  /\ (choice <> 6%Z -> List.length rest < List.length inp)
  /\ exists skipped,
       Forall (fun s => match py_int max_str_digits (strip s) with
                        | Some c => in_menu_range c = false
                        | None => True
                        end) skipped
       /\ ((exists s, inp = (map Line skipped ++ Line s :: rest)%list
                      /\ py_int max_str_digits (strip s) = Some choice)
           \/ (choice = 6%Z
               /\ (inp = map Line skipped /\ rest = []
                   \/ exists e, (e = EOFError \/ e = KeyboardInterrupt)
                                /\ inp = (map Line skipped ++ e :: rest)%list))).
Proof.
  cbv zeta.
  pose proof (get_menu_choice_range max_str_digits inp) as (Hr & Hl & Hlt).
  split; [unfold in_menu_range in Hr; lia|]. split; [exact Hl|].
  split; [exact Hlt|]. clear Hr Hl Hlt.
  induction inp as [|e inp IH].
  - exists []. split; [constructor|]. right. split; [reflexivity|]. now left.
  - destruct e as [s| |].
    + cbn [get_menu_choice].
      destruct (py_int max_str_digits (strip s)) as [c|] eqn:Ei.
      * destruct (in_menu_range c) eqn:Ec.
        -- exists []. split; [constructor|]. left. exists s. now split.
        -- destruct (get_menu_choice max_str_digits inp) as [[c' r'] o'].
           cbn [fst snd] in *. destruct IH as (sk & Hsk & Hcase).
           exists (s :: sk). split; [constructor; [now rewrite Ei | exact Hsk]|].
           destruct Hcase as [(s' & Hi & Hp) | (Hc & [[Hi Hrest] | (e & He & Hi)])].
           ++ left. exists s'. cbn. now rewrite Hi.
           ++ right. split; [exact Hc|]. left. cbn. now rewrite Hi.
           ++ right. split; [exact Hc|]. right. exists e. cbn.
              now rewrite Hi.
      * destruct (get_menu_choice max_str_digits inp) as [[c' r'] o'].
        cbn [fst snd] in *. destruct IH as (sk & Hsk & Hcase).
        exists (s :: sk). split; [constructor; [now rewrite Ei | exact Hsk]|].
        destruct Hcase as [(s' & Hi & Hp) | (Hc & [[Hi Hrest] | (e & He & Hi)])].
        -- left. exists s'. cbn. now rewrite Hi.
        -- right. split; [exact Hc|]. left. cbn. now rewrite Hi.
        -- right. split; [exact Hc|]. right. exists e. cbn. now rewrite Hi.
    + exists []. split; [constructor|]. right. split; [reflexivity|].
      right. exists EOFError. split; [now left | reflexivity].
    + exists []. split; [constructor|]. right. split; [reflexivity|].
      right. exists KeyboardInterrupt. split; [now right | reflexivity].
Qed.

Lemma get_non_empty_input_value (prompt : string) (inp : stdin) :
  let r := get_non_empty_input prompt inp in
  List.length (snd (fst r)) <= List.length inp
  /\ (fst (fst r) = EmptyString
      \/ (trimmed (fst (fst r)) /\ fst (fst r) <> EmptyString)).
Proof.
  cbv zeta. induction inp as [|e inp IH]; [cbn; split; [lia | now left]|].
  destruct e as [s| |]; try (cbn; split; [lia | now left]).
  cbn [get_non_empty_input]. destruct (strip s) as [|c v] eqn:Es.
  - destruct (get_non_empty_input prompt inp) as [[v' rest'] out'].
    cbn [fst snd List.length] in *. destruct IH as [Hl Hv].
    split; [lia | exact Hv].
  - cbn [fst snd List.length]. split; [lia|]. right.
    split; [|discriminate]. rewrite <- Es. apply strip_trimmed.
Qed.

Lemma get_non_empty_input_line (prompt s : string) (rest : stdin) :
  strip s <> EmptyString ->
  get_non_empty_input prompt (Line s :: rest)
  = (strip s, rest, [Prompt prompt]).
Proof.
  intros H. cbn [get_non_empty_input].
  destruct (strip s); [contradiction | reflexivity].
Qed.

Lemma is_empty_false (s : string) : s <> EmptyString -> is_empty s = false.
Proof. destruct s; [contradiction | reflexivity]. Qed.

(** X25: [handle_add_book] on three lines that are not blank.  It
    offers [add_book] the book made of the three stripped lines with
    status "available", and then prints "Book added to catalog." whatever
    [add_book] did: when the ISBN is already in the catalog the inventory
    is unchanged and the duplicate message and "Book added to catalog."
    are both printed. *)
Theorem handle_add_book_three_lines (inventory : LibraryInventory)
    (t a i : string) (rest : stdin) :
  strip t <> EmptyString ->
  strip a <> EmptyString ->
  strip i <> EmptyString ->
  let new_book := mkBook (strip t) (strip a) (strip i) "available" in
  let r := handle_add_book inventory (Line t :: Line a :: Line i :: rest) in
  fst (fst r) = fst (add_book inventory new_book)
  /\ snd (fst r) = rest
  /\ In (say "Book added to catalog.") (snd r)
  /\ (forall b, search_by_isbn inventory (strip i) = Some b ->
        fst (fst r) = inventory /\ In (say msg_duplicate) (snd r)).
Proof.
  intros Ht Ha Hi. cbv zeta. unfold handle_add_book.
  rewrite (get_non_empty_input_line _ t _ Ht), (is_empty_false _ Ht).
  rewrite (get_non_empty_input_line _ a _ Ha), (is_empty_false _ Ha).
  rewrite (get_non_empty_input_line _ i _ Hi), (is_empty_false _ Hi).
  assert (Eb : Book_init (strip t) (strip a) (strip i) "available"
               = mkBook (strip t) (strip a) (strip i) "available").
  { unfold Book_init. now rewrite !strip_idem. }
  rewrite Eb.
  destruct (add_book inventory
              (mkBook (strip t) (strip a) (strip i) "available"))
    as [inventory' ev] eqn:Ea.
  cbn [fst snd]. split; [reflexivity|]. split; [reflexivity|]. split.
  - rewrite !in_app_iff. do 5 right. now left.
  - intros b Hb. unfold add_book in Ea. cbn [isbn] in Ea.
    rewrite Hb in Ea. injection Ea as <- <-. split; [reflexivity|].
    rewrite !in_app_iff. do 4 right. left. now left.
Qed.

Lemma handle_add_book_three_lines_witness :
  let inventory := mkInventory "catalog.json"
                     [mkBook "Dune" "Herbert" "111" "issued"] in
  let r := handle_add_book inventory
             [Line "Emma"; Line "Austen"; Line " 111 "] in
  fst (fst r) = inventory
  /\ In (say msg_duplicate) (snd r)
  /\ In (say "Book added to catalog.") (snd r).
Proof.
  intros inventory r.
  assert (Ht : strip "Emma" <> EmptyString) by discriminate.
  assert (Ha : strip "Austen" <> EmptyString) by discriminate.
  assert (Hi : strip " 111 " <> EmptyString) by discriminate.
  destruct (handle_add_book_three_lines inventory "Emma" "Austen" " 111 "
              [] Ht Ha Hi) as (_ & _ & Hadded & Hdup).
  destruct (Hdup _ eq_refl) as [Hsame Hmsg].
  split; [exact Hsame|]. split; [exact Hmsg | exact Hadded].
Defined.

Lemma display_books_length (bs : list Book) :
  forall idx, List.length (display_books idx bs) = 2 * List.length bs.
Proof.
  induction bs as [|b bs IH]; intros idx; [reflexivity|].
  cbn [display_books List.length]. rewrite IH. lia.
Qed.

Lemma display_books_nth (bs : list Book) :
  forall idx k b,
    nth_error bs k = Some b ->
    nth_error (display_books idx bs) (2 * k)
    = Some (say (nl ("Book #" ++ str_nat (idx + k))))
    /\ nth_error (display_books idx bs) (S (2 * k))
       = Some (PrintText (Book_str b)).
Proof.
  induction bs as [|x bs IH]; intros idx k b Hk; [destruct k; discriminate|].
  destruct k as [|k].
  - injection Hk as ->. cbn. now rewrite Nat.add_0_r.
  - cbn [nth_error] in Hk. destruct (IH (S idx) k b Hk) as [H1 H2].
    replace (2 * S k) with (S (S (2 * k))) by lia.
    cbn [display_books nth_error].
    replace (idx + S k) with (S idx + k) by lia. now split.
Qed.

Lemma nth_error_cons_S {A : Type} (x : A) (l : list A) (n : nat) :
  nth_error (x :: l) (S n) = nth_error l n.
Proof. reflexivity. Qed.

(** X26: what [display_all] prints.  For an empty catalog, the one line
    "No books in the catalog.".  Otherwise a header, then for each book,
    in catalog order, a line with its number, counted from 1, and the
    text of the book, then a footer: two lines more than twice the number
    of books. *)
Theorem display_all_spec (self : LibraryInventory) :
  (books self = [] -> display_all self = [say "No books in the catalog."])
  /\ (books self <> [] ->
      List.length (display_all self) = 2 + 2 * List.length (books self)
      /\ nth_error (display_all self) 0
         = Some (say (nl "--- All Books in Catalog ---"))
      /\ nth_error (display_all self) (1 + 2 * List.length (books self))
         = Some (say (nl "-----------------------------"))
      /\ forall k b, nth_error (books self) k = Some b ->
           nth_error (display_all self) (1 + 2 * k)
           = Some (say (nl ("Book #" ++ str_nat (S k))))
           /\ nth_error (display_all self) (2 + 2 * k)
              = Some (PrintText (Book_str b))).
Proof.
  unfold display_all. split.
  - now intros ->.
  - intros Hne. destruct (books self) as [|x bs] eqn:E; [contradiction|].
    rewrite <- E. clear Hne. split; [|split; [reflexivity|split]].
    + cbn [List.length]. rewrite length_app, display_books_length.
      cbn [List.length]. lia.
    + cbn [Nat.add nth_error].
      rewrite nth_error_app2 by (rewrite display_books_length; lia).
      rewrite display_books_length.
      replace (2 * List.length (books self) - 2 * List.length (books self))
        with 0 by lia.
      reflexivity.
    + intros k b Hk.
      destruct (display_books_nth (books self) 1 k b Hk) as [H1 H2].
      assert (Hlt : k < List.length (books self))
        by (apply nth_error_Some; congruence).
      change (1 + 2 * k) with (S (2 * k)).
      change (2 + 2 * k) with (S (S (2 * k))).
      rewrite !nth_error_cons_S. split.
      * rewrite nth_error_app1 by (rewrite display_books_length; lia).
        exact H1.
      * rewrite nth_error_app1 by (rewrite display_books_length; lia).
        exact H2.
Qed.

Lemma of_string_app (s t : string) :
  of_string (s ++ t) = (of_string s ++ of_string t)%list.
Proof.
  induction s as [|c s IH]; [reflexivity|]. cbn. now rewrite IH.
Qed.

(** X27: the text of a book whose status is one of the two.  It is the
    four lines Title, Author, ISBN and Status of [__str__], with the
    title, author and ISBN as stored and the status capitalised:
    "Available" when [is_available] holds, "Issued" otherwise. *)
Theorem Book_str_valid_status (b : Book) :
  valid_status (status b) ->
  Book_str b
  = of_string
      ("Title : " ++ title b
       ++ nl ("Author: " ++ author b
              ++ nl ("ISBN  : " ++ isbn b
                     ++ nl ("Status: "
                            ++ (if is_available b
                                then "Available" else "Issued"))))).
Proof.
  intros Hs. unfold Book_str, is_available, nl.
  repeat (rewrite of_string_app || cbn [of_string]).
  destruct Hs as [-> | ->]; reflexivity.
Qed.

Lemma Book_str_valid_status_witness :
  Book_str (mkBook "Dune" "Herbert" "111" "issued")
  = of_string ("Title : Dune" ++ nl ("Author: Herbert"
               ++ nl ("ISBN  : 111" ++ nl "Status: Issued"))).
Proof.
  exact (Book_str_valid_status (mkBook "Dune" "Herbert" "111" "issued")
           (or_intror eq_refl)).
Defined.

(** *** The menu loop *)

Lemma step_ok_refl (inventory : LibraryInventory) (inp inp' : stdin) :
  List.length inp' <= List.length inp -> step_ok inventory inventory inp inp'.
Proof. intros H. repeat split; auto. Qed.

Lemma step_ok_trans (a b c : LibraryInventory) (i j k : stdin) :
  step_ok a b i j -> step_ok b c j k -> step_ok a c i k.
Proof.
  intros (H1 & H2 & H3 & H4) (G1 & G2 & G3 & G4).
  repeat split; [lia | congruence | auto | auto].
Qed.

Lemma add_book_sound (inventory : LibraryInventory) (book : Book) :
  Book_ok book ->
  data_file (fst (add_book inventory book)) = data_file inventory
  /\ (Forall Book_ok (books inventory) ->
      Forall Book_ok (books (fst (add_book inventory book))))
  /\ (unique_isbn (books inventory) ->
      unique_isbn (books (fst (add_book inventory book)))).
Proof.
  intros Hb. split; [|split; [|apply add_book_unique]].
  - unfold add_book. now destruct (search_by_isbn inventory (isbn book)).
  - intros Ho. unfold add_book.
    destruct (search_by_isbn inventory (isbn book)); cbn; [exact Ho|].
    apply Forall_app. split; [exact Ho|]. now constructor.
Qed.

Lemma issue_book_sound (inventory : LibraryInventory) (i : string) :
  data_file (fst (issue_book inventory i)) = data_file inventory
  /\ (Forall Book_ok (books inventory) ->
      Forall Book_ok (books (fst (issue_book inventory i))))
  /\ (unique_isbn (books inventory) ->
      unique_isbn (books (fst (issue_book inventory i)))).
Proof.
  split; [apply issue_book_file|].
  rewrite issue_book_books. unfold search_by_isbn.
  destruct (find_isbn (books inventory) i) as [b|] eqn:E; [|now split].
  apply find_isbn_found in E. destruct E as [Ei Hin]. split.
  - intros Ho. apply write_back_ok; [exact Ho|]. apply issue_ok.
    rewrite Forall_forall in Ho. now apply Ho.
  - intros Hu. unfold unique_isbn. rewrite write_back_isbn; [exact Hu|].
    now rewrite issue_isbn.
Qed.

Lemma return_book_sound (inventory : LibraryInventory) (i : string) :
  data_file (fst (Inventory_return_book inventory i)) = data_file inventory
  /\ (Forall Book_ok (books inventory) ->
      Forall Book_ok (books (fst (Inventory_return_book inventory i))))
  /\ (unique_isbn (books inventory) ->
      unique_isbn (books (fst (Inventory_return_book inventory i)))).
Proof.
  split; [apply return_book_file|].
  rewrite return_book_books. unfold search_by_isbn.
  destruct (find_isbn (books inventory) i) as [b|] eqn:E; [|now split].
  apply find_isbn_found in E. destruct E as [Ei Hin]. split.
  - intros Ho. apply write_back_ok; [exact Ho|]. apply return_book_ok.
    rewrite Forall_forall in Ho. now apply Ho.
  - intros Hu. unfold unique_isbn. rewrite write_back_isbn; [exact Hu|].
    now rewrite return_book_isbn.
Qed.

Lemma handle_add_book_step (inventory : LibraryInventory) (inp : stdin) :
  step_ok inventory (fst (fst (handle_add_book inventory inp)))
    inp (snd (fst (handle_add_book inventory inp))).
Proof.
  unfold handle_add_book.
  pose proof (get_non_empty_input_value "Enter title: " inp) as [L1 _].
  destruct (get_non_empty_input "Enter title: " inp) as [[t inp1] out1].
  cbn [fst snd] in L1.
  destruct (is_empty t); [now apply step_ok_refl|].
  pose proof (get_non_empty_input_value "Enter author: " inp1) as [L2 _].
  destruct (get_non_empty_input "Enter author: " inp1) as [[a inp2] out2].
  cbn [fst snd] in L2.
  destruct (is_empty a); [apply step_ok_refl; cbn; lia|].
  pose proof (get_non_empty_input_value "Enter ISBN: " inp2) as [L3 _].
  destruct (get_non_empty_input "Enter ISBN: " inp2) as [[i inp3] out3].
  cbn [fst snd] in L3.
  destruct (is_empty i); [apply step_ok_refl; cbn; lia|].
  pose proof (add_book_sound inventory (Book_init t a i "available")
                (Book_init_ok t a i "available")) as (H1 & H2 & H3).
  destruct (add_book inventory (Book_init t a i "available"))
    as [inventory' ev].
  cbn [fst snd] in *. repeat split; [lia | exact H1 | exact H2 | exact H3].
Qed.

Lemma handle_issue_book_step (inventory : LibraryInventory) (inp : stdin) :
  step_ok inventory (fst (fst (handle_issue_book inventory inp)))
    inp (snd (fst (handle_issue_book inventory inp))).
Proof.
  unfold handle_issue_book.
  pose proof (get_non_empty_input_value
                "Enter ISBN of the book to issue: " inp) as [L1 _].
  destruct (get_non_empty_input "Enter ISBN of the book to issue: " inp)
    as [[i inp1] out1].
  cbn [fst snd] in L1.
  destruct (is_empty i); [now apply step_ok_refl|].
  pose proof (issue_book_sound inventory i) as (H1 & H2 & H3).
  destruct (issue_book inventory i) as [inventory' ev].
  cbn [fst snd] in *. repeat split; [lia | exact H1 | exact H2 | exact H3].
Qed.

Lemma handle_return_book_step (inventory : LibraryInventory) (inp : stdin) :
  step_ok inventory (fst (fst (handle_return_book inventory inp)))
    inp (snd (fst (handle_return_book inventory inp))).
Proof.
  unfold handle_return_book.
  pose proof (get_non_empty_input_value
                "Enter ISBN of the book to return: " inp) as [L1 _].
  destruct (get_non_empty_input "Enter ISBN of the book to return: " inp)
    as [[i inp1] out1].
  cbn [fst snd] in L1.
  destruct (is_empty i); [now apply step_ok_refl|].
  pose proof (return_book_sound inventory i) as (H1 & H2 & H3).
  destruct (Inventory_return_book inventory i) as [inventory' ev].
  cbn [fst snd] in *. repeat split; [lia | exact H1 | exact H2 | exact H3].
Qed.

Lemma handle_search_length (max_str_digits : nat)
    (inventory : LibraryInventory) (inp : stdin) :
  List.length (fst (handle_search max_str_digits inventory inp))
  <= List.length inp.
Proof.
  unfold handle_search, input.
  destruct inp as [|e rest]; [cbn; lia|].
  destruct e as [s| |]; try (cbn; lia).
  destruct (py_int max_str_digits (strip s)) as [c|]; [|cbn; lia].
  destruct (c =? 1)%Z.
  - unfold search_title_branch.
    pose proof (get_non_empty_input_value
                  "Enter title or part of title: " rest) as [L _].
    destruct (get_non_empty_input "Enter title or part of title: " rest)
      as [[t inp1] out1].
    cbn [fst snd] in L.
    destruct (is_empty t); [cbn; lia|].
    destruct (search_by_title inventory t); cbn; lia.
  - destruct (c =? 2)%Z; [|cbn; lia].
    unfold search_isbn_branch.
    pose proof (get_non_empty_input_value "Enter ISBN: " rest) as [L _].
    destruct (get_non_empty_input "Enter ISBN: " rest) as [[i inp1] out1].
    cbn [fst snd] in L.
    destruct (is_empty i); [cbn; lia|].
    destruct (search_by_isbn inventory i); cbn; lia.
Qed.

(** The loop ends on every input: a turn that does not exit has read
    something, and the end of the input exits. *)
Lemma menu_loop_total (max_str_digits : nat) :
  forall fuel inventory inp,
    List.length inp < fuel ->
    exists final unread out,
      menu_loop fuel max_str_digits inventory inp
      = Some (final, unread, out)
      /\ step_ok inventory final inp unread.
Proof.
  induction fuel as [|fuel IH]; intros inventory inp Hf; [lia|].
  cbn [menu_loop].
  pose proof (get_menu_choice_range max_str_digits inp) as (Hr & Hl & Hlt).
  destruct (get_menu_choice max_str_digits inp) as [[choice inp1] out1].
  cbn [fst snd] in Hr, Hl, Hlt. unfold in_menu_range in Hr.
  assert (Hnext : forall inventory' inp2 out2,
             step_ok inventory inventory' inp1 inp2 ->
             choice <> 6%Z ->
             exists final unread out,
               match menu_loop fuel max_str_digits inventory' inp2 with
               | Some (final0, unread0, more) =>
                   Some (final0, unread0,
                         ((menu_text ++ out1) ++ out2 ++ more)%list)
               | None => None
               end = Some (final, unread, out)
               /\ step_ok inventory final inp unread).
  { intros inventory' inp2 out2 Hstep Hc. specialize (Hlt Hc).
    pose proof Hstep as (Hs & _).
    destruct (IH inventory' inp2) as (final & unread & more & E & Hfin);
      [lia|].
    rewrite E. eexists _, _, _. split; [reflexivity|].
    apply (step_ok_trans _ inventory' _ _ inp2).
    - destruct Hstep as (S1 & S2 & S3 & S4). repeat split; auto. lia.
    - exact Hfin. }
  destruct (Z.eqb_spec choice 1) as [E1 | E1].
  { pose proof (handle_add_book_step inventory inp1) as Hstep.
    destruct (handle_add_book inventory inp1) as [[inventory' inp2] out2].
    apply Hnext; [exact Hstep | lia]. }
  destruct (Z.eqb_spec choice 2) as [E2 | E2].
  { pose proof (handle_issue_book_step inventory inp1) as Hstep.
    destruct (handle_issue_book inventory inp1) as [[inventory' inp2] out2].
    apply Hnext; [exact Hstep | lia]. }
  destruct (Z.eqb_spec choice 3) as [E3 | E3].
  { pose proof (handle_return_book_step inventory inp1) as Hstep.
    destruct (handle_return_book inventory inp1) as [[inventory' inp2] out2].
    apply Hnext; [exact Hstep | lia]. }
  destruct (Z.eqb_spec choice 4) as [E4 | E4].
  { apply Hnext; [now apply step_ok_refl | lia]. }
  destruct (Z.eqb_spec choice 5) as [E5 | E5].
  { pose proof (handle_search_length max_str_digits inventory inp1) as Hs.
    destruct (handle_search max_str_digits inventory inp1) as [inp2 out2].
    apply Hnext; [now apply step_ok_refl | lia]. }
  destruct (Z.eqb_spec choice 6) as [E6 | E6]; [|lia].
  eexists _, _, _. split; [reflexivity|]. now apply step_ok_refl.
Qed.

(** *** The program *)

Lemma init_returned (st : store) (renv : read_env)
    (inventory : LibraryInventory) (ev : list event) :
  LibraryInventory_init "catalog.json" st renv
  = Some (Returned inventory, ev) ->
  data_file inventory = "catalog.json"
  /\ Forall Book_ok (books inventory)
  /\ (st = None -> books inventory = []).
Proof.
  unfold LibraryInventory_init. intros H. split; [|split].
  - revert H. unfold load_from_file.
    destruct st as [text|]; [|now intros [= <- _]].
    destruct renv; [|now intros [= <- _]].
    destruct (Json.loads text) as [[]|data]; try discriminate;
      [now intros [= <- _]|].
    destruct (load_books data); [|discriminate]. now intros [= <- _].
  - now apply (load_from_file_ok _ _ _ _ _ H).
  - intros ->. cbn in H. now injection H as <- _.
Qed.

Lemma init_raised (st : store) (renv : read_env) (e : exn)
    (ev : list event) :
  LibraryInventory_init "catalog.json" st renv = Some (Raised e, ev) ->
  ev = [].
Proof.
  unfold LibraryInventory_init, load_from_file.
  destruct st as [text|]; [|discriminate].
  destruct renv; [|discriminate].
  destruct (Json.loads text) as [[]|data]; try discriminate.
  destruct (load_books data); [discriminate|]. now intros [= _ <-].
Qed.

Lemma main_returns (max_str_digits : nat) (st : store) (renv : read_env)
    (wenv : write_env) (inp : stdin) (inventory : LibraryInventory)
    (ev : list event) :
  LibraryInventory_init "catalog.json" st renv
  = Some (Returned inventory, ev) ->
  exists final unread out,
    menu_loop (S (List.length inp)) max_str_digits inventory inp
    = Some (final, unread, out)
    /\ step_ok inventory final inp unread
    /\ main max_str_digits st renv wenv inp
       = Some (mkRun (Returned tt)
                 (snd (fst (save_to_file final st wenv))) unread
                 (map Out ev ++ banner ++ out
                  ++ say "Saving catalog and exiting..."
                  :: map Out (snd (save_to_file final st wenv))
                  ++ [say "Goodbye!"])%list).
Proof.
  intros Hinit.
  destruct (menu_loop_total max_str_digits (S (List.length inp))
              inventory inp (Nat.lt_succ_diag_r _))
    as (final & unread & out & Eloop & Hstep).
  exists final, unread, out. split; [exact Eloop|]. split; [exact Hstep|].
  unfold main. rewrite Hinit, Eloop.
  now destruct (save_to_file final st wenv) as [[self' st'] ev'].
Qed.

(** X28: the program always ends by saving.  Whenever the catalog file
    could be loaded, [main] returns on every input, however it ends: the
    last thing it does is to save the inventory the menu left, between
    the lines "Saving catalog and exiting..." and "Goodbye!".  That
    inventory still has the file name catalog.json and only records that
    satisfy the record invariant, and distinct ISBNs if the loaded
    catalog had. *)
Theorem main_always_saves (max_str_digits : nat) (st : store)
    (renv : read_env) (wenv : write_env) (inp : stdin)
    (inventory : LibraryInventory) (ev : list event) :
  LibraryInventory_init "catalog.json" st renv
  = Some (Returned inventory, ev) ->
  exists final r before,
    main max_str_digits st renv wenv inp = Some r
    /\ program max_str_digits st renv wenv inp = Some r
    /\ result r = Returned tt
    /\ file_after r = snd (fst (save_to_file final st wenv))
    /\ written r
       = (before ++ say "Saving catalog and exiting..."
          :: map Out (snd (save_to_file final st wenv))
          ++ [say "Goodbye!"])%list
    /\ List.length (input_left r) <= List.length inp
    /\ data_file final = "catalog.json"
    /\ Forall Book_ok (books final)
    /\ (unique_isbn (books inventory) -> unique_isbn (books final)).
Proof.
  intros Hinit.
  destruct (init_returned _ _ _ _ Hinit) as (Hfile & Hok & _).
  destruct (main_returns max_str_digits st renv wenv inp _ _ Hinit)
    as (final & unread & out & _ & (Hl & Hf & Ho & Hu) & Emain).
  eexists final, _, (map Out ev ++ banner ++ out)%list.
  split; [exact Emain|]. split; [unfold program; now rewrite Emain|].
  cbn [result file_after written input_left].
  split; [reflexivity|]. split; [reflexivity|].
  split; [now rewrite <- !app_assoc|]. split; [exact Hl|].
  split; [congruence|]. split; [now apply Ho | exact Hu].
Qed.

Lemma main_always_saves_witness :
  exists final r,
    main 4300 None ReadOk WriteOk
      [Line "1"; Line "Dune"; Line "Herbert"; Line "111"] = Some r
    /\ file_after r = snd (fst (save_to_file final None WriteOk))
    /\ Forall Book_ok (books final).
Proof.
  destruct (main_always_saves 4300 None ReadOk WriteOk
              [Line "1"; Line "Dune"; Line "Herbert"; Line "111"]
              (mkInventory "catalog.json" []) _ eq_refl)
    as (final & r & before & Em & _ & _ & Ef & _ & _ & _ & Hok & _).
  exists final, r. split; [exact Em|]. split; [exact Ef | exact Hok].
Defined.

(** X29: the next session starts where the last one ended.  When the
    catalog file could be loaded and the save at the end succeeds, an
    inventory constructed from the file the program leaves is exactly the
    inventory the menu left, with no warning; and a catalog that started
    without a file has distinct ISBNs at the end. *)
Theorem next_session_resumes (max_str_digits : nat) (st : store)
    (renv : read_env) (inp : stdin) (inventory : LibraryInventory)
    (ev : list event) :
  LibraryInventory_init "catalog.json" st renv
  = Some (Returned inventory, ev) ->
  exists final unread out r,
    menu_loop (S (List.length inp)) max_str_digits inventory inp
    = Some (final, unread, out)
    /\ main max_str_digits st renv WriteOk inp = Some r
    /\ LibraryInventory_init "catalog.json" (file_after r) ReadOk
       = Some (Returned final,
               [LogInfo "Catalog loaded successfully from file."])
    /\ (st = None -> unique_isbn (books final)).
Proof.
  intros Hinit.
  destruct (init_returned _ _ _ _ Hinit) as (Hfile & Hok & Hfresh).
  destruct (main_returns max_str_digits st renv WriteOk inp _ _ Hinit)
    as (final & unread & out & Eloop & (Hl & Hf & Ho & Hu) & Emain).
  eexists final, unread, out, _. split; [exact Eloop|].
  split; [exact Emain|]. cbn [file_after]. split.
  - unfold LibraryInventory_init.
    rewrite load_after_save, (renormalize_fixed _ (Ho Hok)).
    cbn [set_books data_file]. rewrite <- Hfile, <- Hf.
    now destruct final.
  - intros Hst. apply Hu. rewrite (Hfresh Hst). constructor.
Qed.

Lemma next_session_resumes_witness :
  exists final,
    Forall Book_ok (books final)
    /\ exists r,
         main 4300 None ReadOk WriteOk
           [Line "1"; Line "Dune"; Line "Herbert"; Line "111"; Line "2";
            Line "111"] = Some r
         /\ LibraryInventory_init "catalog.json" (file_after r) ReadOk
            = Some (Returned final,
                    [LogInfo "Catalog loaded successfully from file."]).
Proof.
  destruct (next_session_resumes 4300 None ReadOk
              [Line "1"; Line "Dune"; Line "Herbert"; Line "111"; Line "2";
               Line "111"]
              (mkInventory "catalog.json" []) _ eq_refl)
    as (final & unread & out & r & Eloop & Em & Enext & _).
  exists final. split.
  - exact (load_from_file_ok _ _ _ _ _ Enext).
  - exists r. split; [exact Em | exact Enext].
Defined.

(** X30: a catalog file that makes the constructor raise.  The handler
    at the end of the file catches the exception: the program logs it,
    prints the one line "An unexpected error occurred. Please check the
    log file for details." and ends.  It has shown no menu, read no
    input and left the file as it was. *)
Theorem program_reports_load_failure (max_str_digits : nat) (st : store)
    (renv : read_env) (wenv : write_env) (inp : stdin) (e : exn)
    (ev : list event) :
  LibraryInventory_init "catalog.json" st renv = Some (Raised e, ev) ->
  program max_str_digits st renv wenv inp
  = Some (mkRun (Returned tt) st inp
            [Out (LogError "Unhandled exception in main: ");
             say "An unexpected error occurred. Please check the log file for details."]).
Proof.
  intros Hinit. pose proof (init_raised _ _ _ _ Hinit) as ->.
  unfold program, main. now rewrite Hinit.
Qed.

Lemma program_reports_load_failure_witness :
  program 4300 (Some file_single_record) ReadOk WriteOk [Line "4"]
  = Some (mkRun (Returned tt) (Some file_single_record) [Line "4"]
            [Out (LogError "Unhandled exception in main: ");
             say "An unexpected error occurred. Please check the log file for details."]).
Proof.
  exact (program_reports_load_failure 4300 (Some file_single_record)
           ReadOk WriteOk [Line "4"] AttributeError [] eq_refl).
Defined.

End CliFacts.
